(** * musicbot/entry.py: playlist entries, readiness futures and the download cache

    A shallow embedding of [BasePlaylistEntry], [URLPlaylistEntry] and
    [OsuPlaylistEntry] of [musicbot/entry.py].  Python objects become records,
    the event loop, the file system and the standard output become an explicit
    [World] that every method threads through, and exceptions are values of
    [res].  The collaborators that live outside the module (the header probe,
    the extractor, [md5sum]) are fields of a record that is passed in.

    Paths are plain strings with the POSIX separator.  The third subclass,
    [LocalOsuPlaylistEntry], only reads a beatmap file in its constructor and
    replaces the property [is_downloaded] by a method; it is not modelled. *)

From Stdlib Require Import ZArith Ascii String List Lia.
From stdpp Require Import base tactics option list strings pretty.

Local Open Scope string_scope.
Local Open Scope list_scope.
Local Open Scope stdpp_scope.

(** ** Python string and path primitives *)

Module PyStr.

(** [s.rpartition(c)] when [c] occurs in [s]: the text before and after the
    LAST occurrence of [c]. *)
Fixpoint rpartition (c : ascii) (s : string) : option (string * string) :=
  match s with
  | EmptyString => None
  | String a s' =>
      match rpartition c s' with
      | Some (b, t) => Some (String a b, t)
      | None => if Ascii.eqb a c then Some (EmptyString, s') else None
      end
  end.

(** [s.rsplit(c, 1)]: one or two pieces. *)
Definition rsplit (c : ascii) (s : string) : list string :=
  match rpartition c s with
  | Some (b, t) => [b; t]
  | None => [s]
  end.

(** [s.rsplit(c, 1)[0]] *)
Definition rsplit_head (c : ascii) (s : string) : string :=
  match rpartition c s with
  | Some (b, _) => b
  | None => s
  end.

(** [s.rsplit(c, 1)[-1]] *)
Definition rsplit_last (c : ascii) (s : string) : string :=
  match rpartition c s with
  | Some (_, t) => t
  | None => s
  end.

(** [s.split(c)[0]]: the text before the FIRST occurrence of [c]. *)
Fixpoint split_head (c : ascii) (s : string) : string :=
  match s with
  | EmptyString => EmptyString
  | String a s' => if Ascii.eqb a c then EmptyString else String a (split_head c s')
  end.

(** [sep.join(parts)] *)
Fixpoint join (sep : string) (parts : list string) : string :=
  match parts with
  | [] => ""
  | [x] => x
  | x :: rest => x +:+ sep +:+ join sep rest
  end.

(** The characters of a string, as [str] iteration yields them. *)
Fixpoint chars (s : string) : list string :=
  match s with
  | EmptyString => []
  | String a s' => String a EmptyString :: chars s'
  end.

(** [s.startswith(p)] *)
Fixpoint startswith (p s : string) : bool :=
  match p, s with
  | EmptyString, _ => true
  | String a p', String b s' => (Ascii.eqb b a && startswith p' s')%bool
  | String _ _, EmptyString => false
  end.

Fixpoint endswith_char (c : ascii) (s : string) : bool :=
  match s with
  | EmptyString => false
  | String a EmptyString => Ascii.eqb a c
  | String _ s' => endswith_char c s'
  end.

(** [bool(s)] for an optional string: [None] and [""] are falsy. *)
Definition truthy (o : option string) : bool :=
  match o with
  | Some (String _ _) => true
  | _ => false
  end.

End PyStr.

(** [os.path] in its POSIX flavour ([posixpath]): the separator is ["/"]. *)
Module OsPath.

Definition sep : ascii := "/"%char.

(** [os.path.basename(p)] *)
Definition basename (p : string) : string := PyStr.rsplit_last sep p.

(** [os.path.join(a, b)] *)
Definition join (a b : string) : string :=
  if PyStr.startswith "/" b then b
  else if (String.eqb a "" || PyStr.endswith_char sep a)%bool then a +:+ b
  else a +:+ "/" +:+ b.

End OsPath.

(** ** Exceptions and results *)

Inductive exn : Type :=
| KeyError (key : string)
| TypeError
| ValueError
| IndexError
| AttributeError
| FileNotFoundError (path : string)
| IsADirectoryError (path : string)
| NotADirectoryError (path : string)
| InvalidStateError
| OtherError (name : string)
| ExtractionError (cause : exn)
| ExtractionErrorMsg (msg : string).

#[export] Instance exn_eq_dec : EqDecision exn.
Proof. solve_decision. Defined.

Inductive res (A : Type) : Type :=
| Ret (a : A)
| Raise (e : exn).
Arguments Ret {A} a.
Arguments Raise {A} e.

(** ** The world outside the entry *)

(** What a readiness future holds.  A future is resolved with the entry
    itself ([set_result(self)], a reference) or with an exception. *)
Inductive fstate : Type :=
| Pending
| Cancelled
| HasResult
| HasException (e : exn).

#[export] Instance fstate_eq_dec : EqDecision fstate.
Proof. solve_decision. Defined.

Inductive node : Type :=
| File (content : string)
| Dir (st_size : nat).   (* the size the OS reports for the directory itself *)

Inductive effect : Type :=
| Print (line : string)
| PrintExc (e : exn)
| MakeDirs (path : string)
| GetHeader (url : string)
| ExtractInfo (url : string)
| Unlink (path : string)
| Rename (src dst : string)
| SetResult (h : nat)
| SetException (h : nat) (e : exn).

Record World : Type := mkWorld {
  futures : list fstate;        (* every asyncio.Future created so far, by handle *)
  tasks : nat;                  (* _download() tasks queued by ensure_future, not yet started *)
  pool : nat;                   (* calls handed to the downloader's thread pool, not yet finished *)
  fs : list (string * node);    (* the file system: path |-> node, in listing order *)
  log : list effect             (* effects performed so far, oldest first *)
}.

Definition set_futures (f : list fstate) (w : World) : World :=
  mkWorld f (tasks w) (pool w) (fs w) (log w).
Definition set_tasks (n : nat) (w : World) : World :=
  mkWorld (futures w) n (pool w) (fs w) (log w).
Definition set_pool (n : nat) (w : World) : World :=
  mkWorld (futures w) (tasks w) n (fs w) (log w).
Definition set_fs (f : list (string * node)) (w : World) : World :=
  mkWorld (futures w) (tasks w) (pool w) f (log w).
Definition emit (e : effect) (w : World) : World :=
  mkWorld (futures w) (tasks w) (pool w) (fs w) (log w ++ [e]).

(** ** File system operations *)

Module Fs.

Definition t : Type := list (string * node).

Fixpoint lookup (p : string) (f : t) : option node :=
  match f with
  | [] => None
  | (q, n) :: rest => if String.eqb q p then Some n else lookup p rest
  end.

Fixpoint remove (p : string) (f : t) : t :=
  match f with
  | [] => []
  | (q, n) :: rest => if String.eqb q p then remove p rest else (q, n) :: remove p rest
  end.

(** Writing a file: in place when the path exists, else a new last entry. *)
Fixpoint write (p : string) (n : node) (f : t) : t :=
  match f with
  | [] => [(p, n)]
  | (q, m) :: rest => if String.eqb q p then (q, n) :: rest else (q, m) :: write p n rest
  end.

(** The size [os.path.getsize] reports for a node. *)
Definition size (n : node) : Z :=
  match n with
  | File content => Z.of_nat (String.length content)
  | Dir st_size => Z.of_nat st_size
  end.

(** [os.path.exists] *)
Definition exists_ (p : string) (f : t) : bool :=
  match lookup p f with Some _ => true | None => false end.

(** [os.path.isfile] *)
Definition isfile (p : string) (f : t) : bool :=
  match lookup p f with Some (File _) => true | _ => false end.

Definition isdir (p : string) (f : t) : bool :=
  match lookup p f with Some (Dir _) => true | _ => false end.

(** The prefix that the paths of the children of directory [d] share. *)
Definition dir_prefix (d : string) : string :=
  if (String.eqb d "" || PyStr.endswith_char OsPath.sep d)%bool then d else d +:+ "/".

Fixpoint strip_prefix (p s : string) : option string :=
  match p, s with
  | EmptyString, _ => Some s
  | String a p', String b s' => if Ascii.eqb a b then strip_prefix p' s' else None
  | String _ _, EmptyString => None
  end.

Fixpoint has_sep (s : string) : bool :=
  match s with
  | EmptyString => false
  | String a s' => (Ascii.eqb a OsPath.sep || has_sep s')%bool
  end.

(** The name of [p] inside directory [d], when [p] is a direct child. *)
Definition child_name (d p : string) : option string :=
  match strip_prefix (dir_prefix d) p with
  | Some (String a n) => if has_sep (String a n) then None else Some (String a n)
  | _ => None
  end.

(** The names [os.listdir(d)] returns, in the order of the file system. *)
Definition children (d : string) (f : t) : list string :=
  omap (fun pn => child_name d (fst pn)) f.

End Fs.


(** ** BasePlaylistEntry *)

Record BasePlaylistEntry : Type := mkBase {
  filename : option string;
  _is_downloading : bool;
  _waiting_futures : list nat
}.

(** [BasePlaylistEntry.__init__] *)
Definition base_init : BasePlaylistEntry := mkBase None false [].

Definition set_filename (f : option string) (b : BasePlaylistEntry) : BasePlaylistEntry :=
  mkBase f (_is_downloading b) (_waiting_futures b).
Definition set_is_downloading (d : bool) (b : BasePlaylistEntry) : BasePlaylistEntry :=
  mkBase (filename b) d (_waiting_futures b).
Definition set_waiting_futures (l : list nat) (b : BasePlaylistEntry) : BasePlaylistEntry :=
  mkBase (filename b) (_is_downloading b) l.

(** The subclasses inherit the three attributes of the base class. *)
Class Entry (E : Type) : Type := {
  base : E -> BasePlaylistEntry;
  with_base : BasePlaylistEntry -> E -> E;
  base_with_base : forall b e, base (with_base b e) = b;
  with_base_base : forall e, with_base (base e) e = e;
  with_base_twice : forall b b' e, with_base b (with_base b' e) = with_base b e
}.

#[export] Instance Entry_base : Entry BasePlaylistEntry :=
  {| base := fun b => b; with_base := fun b _ => b;
     base_with_base := fun _ _ => eq_refl;
     with_base_base := fun _ => eq_refl;
     with_base_twice := fun _ _ _ => eq_refl |}.

(** The property [is_downloaded]. *)
Definition is_downloaded (b : BasePlaylistEntry) : bool :=
  if _is_downloading b then false else PyStr.truthy (filename b).

(** *** Futures *)

Definition cancelled (h : nat) (w : World) : bool :=
  match futures w !! h with
  | Some Cancelled => true
  | _ => false
  end.

(** [asyncio.Future()]: a new pending future; its handle is its index. *)
Definition new_future (w : World) : nat * World :=
  (length (futures w), set_futures (futures w ++ [Pending]) w).

(** Resolving a future: only a pending future accepts an outcome; any other
    raises [InvalidStateError] and is left as it is. *)
Definition settle (v : fstate) (ev : nat -> effect) (h : nat) (w : World) : World * res unit :=
  match futures w !! h with
  | Some Pending => (emit (ev h) (set_futures (<[h := v]> (futures w)) w), Ret tt)
  | _ => (w, Raise InvalidStateError)
  end.

(** [future.set_result(self)] *)
Definition set_result : nat -> World -> World * res unit :=
  settle HasResult SetResult.

(** [future.set_exception(e)] *)
Definition set_exception (e : exn) : nat -> World -> World * res unit :=
  settle (HasException e) (fun h => SetException h e).

(** [future.cancel()], called by the owner of the handle. *)
Definition cancel (h : nat) (w : World) : World :=
  match futures w !! h with
  | Some Pending => set_futures (<[h := Cancelled]> (futures w)) w
  | _ => w
  end.

(** A callback handed to [_for_each_future]: it may change the entry and the
    world, and it may raise. *)
Definition callback (E : Type) : Type := nat -> E * World -> (E * World) * res unit.

(** A callback that only touches the future it is given. *)
Definition on_future {E : Type} (f : nat -> World -> World * res unit) : callback E :=
  fun h s => let '(w, r) := f h (snd s) in ((fst s, w), r).

(** [lambda future: future.set_result(self)] *)
Definition cb_set_result {E : Type} : callback E := on_future set_result.

(** [lambda future: future.set_exception(e)] *)
Definition cb_set_exception {E : Type} (e : exn) : callback E := on_future (set_exception e).

(** The [for] loop of [_for_each_future] over the swapped-out list. *)
Fixpoint for_each_loop {E : Type} (cb : callback E) (l : list nat) (s : E * World) : E * World :=
  match l with
  | [] => s
  | future :: rest =>
      if cancelled future (snd s) then for_each_loop cb rest s
      else
        match cb future s with
        | (s', Ret _) => for_each_loop cb rest s'
        | (s', Raise e) => for_each_loop cb rest (fst s', emit (PrintExc e) (snd s'))
        end
  end.

(** [BasePlaylistEntry._for_each_future] *)
Definition _for_each_future {E : Type} `{Entry E} (cb : callback E) (s : E * World) : E * World :=
  let futures := _waiting_futures (base (fst s)) in
  let s := (with_base (set_waiting_futures [] (base (fst s))) (fst s), snd s) in
  for_each_loop cb futures s.

(** [BasePlaylistEntry.get_ready_future]; [ensure_future(self._download())]
    queues one more [_download] task on the loop. *)
Definition get_ready_future {E : Type} `{Entry E} (s : E * World) : nat * (E * World) :=
  let '(future, w) := new_future (snd s) in
  if is_downloaded (base (fst s)) then
    (future, (fst s, fst (set_result future w)))
  else
    let w := set_tasks (S (tasks w)) w in
    let b := base (fst s) in
    (future, (with_base (set_waiting_futures (_waiting_futures b ++ [future]) b) (fst s), w)).

(** ** Collaborators of URLPlaylistEntry *)

(** What [downloader.extract_info(loop, url, download=True)] hands back: the
    file name [ytdl.prepare_filename(result)] computes from it, and the bytes
    the transfer wrote to that file. *)
Record ytdl_result : Type := mkResult {
  prepare_filename : string;
  payload : string
}.

Inductive extract_outcome : Type :=
| ExtractRaises (e : exn)
| ExtractNone
| ExtractOk (result : ytdl_result).

(** The code outside [entry.py] that one download attempt talks to.
    [content_length url] is the value of
    [int(await get_header(session, url, 'CONTENT-LENGTH'))], and [None] when
    the call or the conversion raises; [md5 content limit] is what
    [utils.md5sum] computes from the bytes of a file. *)
Record Collab : Type := mkCollab {
  content_length : string -> option Z;
  extract_info : string -> extract_outcome;
  md5 : string -> nat -> string
}.

(** A Python object kept in [meta]: an object of the chat library with its
    class name, [.id] and [.name]; a plain [str]; or [None]. *)
Inductive pyobj : Type :=
| Obj (cls id name : string)
| Str (s : string)
| PyNone.

(** The parts of the playlist an entry reaches through [self.playlist]. *)
Record Playlist : Type := mkPlaylist {
  downloader_download_folder : string;
  bot_get_channel : string -> pyobj;
  server_get_member : pyobj -> string -> pyobj
}.

(** ** URLPlaylistEntry *)

Record URLPlaylistEntry : Type := mkURL {
  url_base : BasePlaylistEntry;
  url : string;
  title : string;
  duration : Z;
  expected_filename : option string;
  meta : list (string * pyobj);
  download_folder : string
}.

#[export] Instance Entry_URL : Entry URLPlaylistEntry :=
  {| base := url_base;
     with_base := fun b e =>
       mkURL b (url e) (title e) (duration e) (expected_filename e) (meta e) (download_folder e);
     base_with_base := fun _ _ => eq_refl;
     with_base_base := fun e => match e with mkURL _ _ _ _ _ _ _ => eq_refl end;
     with_base_twice := fun _ _ _ => eq_refl |}.

(** [URLPlaylistEntry.__init__] *)
Definition URLPlaylistEntry_init (playlist : Playlist) (url title : string) (duration : Z)
    (expected_filename : option string) (meta : list (string * pyobj)) : URLPlaylistEntry :=
  mkURL base_init url title duration expected_filename meta (downloader_download_folder playlist).

(** *** A state-and-exception monad for the body of the coroutines *)

Definition St : Type := URLPlaylistEntry * World.
Definition M (A : Type) : Type := St -> St * res A.

Definition ret {A : Type} (a : A) : M A := fun s => (s, Ret a).
Definition raise {A : Type} (e : exn) : M A := fun s => (s, Raise e).
Definition bind {A B : Type} (m : M A) (k : A -> M B) : M B :=
  fun s => match m s with
           | (s', Ret a) => k a s'
           | (s', Raise e) => (s', Raise e)
           end.

Notation "x <- m ;; k" := (bind m (fun x => k))
  (at level 100, m at level 99, k at level 200, right associativity).
Notation "m ;; k" := (bind m (fun _ => k))
  (at level 100, k at level 200, right associativity).

Definition self : M URLPlaylistEntry := fun s => (s, Ret (fst s)).
Definition get_fs : M (list (string * node)) := fun s => (s, Ret (fs (snd s))).
Definition modify_world (f : World -> World) : M unit := fun s => ((fst s, f (snd s)), Ret tt).
Definition perform (e : effect) : M unit := modify_world (emit e).
Definition print (line : string) : M unit := perform (Print line).

(** [self.filename = f] *)
Definition assign_filename (f : string) : M unit :=
  fun s => ((with_base (set_filename (Some f) (base (fst s))) (fst s), snd s), Ret tt).

(** *** The [os] calls the entry makes *)

Definition os_path_exists (p : string) : M bool :=
  f <- get_fs ;; ret (Fs.exists_ p f).

Definition os_path_isfile (p : string) : M bool :=
  f <- get_fs ;; ret (Fs.isfile p f).

Definition os_makedirs (p : string) : M unit :=
  perform (MakeDirs p) ;;
  f <- get_fs ;;
  if Fs.exists_ p f then raise (OtherError "FileExistsError")
  else modify_world (set_fs (Fs.write p (Dir 0) f)).

Definition os_listdir (d : string) : M (list string) :=
  f <- get_fs ;;
  match Fs.lookup d f with
  | Some (Dir _) => ret (Fs.children d f)
  | Some (File _) => raise (NotADirectoryError d)
  | None => raise (FileNotFoundError d)
  end.

Definition os_path_getsize (p : string) : M Z :=
  f <- get_fs ;;
  match Fs.lookup p f with
  | Some n => ret (Fs.size n)
  | None => raise (FileNotFoundError p)
  end.

Definition os_unlink (p : string) : M unit :=
  perform (Unlink p) ;;
  f <- get_fs ;;
  match Fs.lookup p f with
  | Some (File _) => modify_world (set_fs (Fs.remove p f))
  | Some (Dir _) => raise (IsADirectoryError p)
  | None => raise (FileNotFoundError p)
  end.

Definition os_rename (src dst : string) : M unit :=
  perform (Rename src dst) ;;
  f <- get_fs ;;
  match Fs.lookup src f with
  | None => raise (FileNotFoundError src)
  | Some n =>
      if Fs.isdir dst f then raise (IsADirectoryError dst)
      else modify_world (set_fs (Fs.write dst n (Fs.remove src f)))
  end.

(** [md5sum(path, limit)] opens the file and hashes its bytes. *)
Definition md5sum (c : Collab) (p : string) (limit : nat) : M string :=
  f <- get_fs ;;
  match Fs.lookup p f with
  | Some (File content) => ret (md5 c content limit)
  | Some (Dir _) => raise (IsADirectoryError p)
  | None => raise (FileNotFoundError p)
  end.

(** [x in l], [l.index(x)] and [l[i]] on lists of strings. *)
Definition py_in (x : string) (l : list string) : bool := bool_decide (x ∈ l).

Definition py_index (x : string) (l : list string) : M nat :=
  match list_find (eq x) l with
  | Some (i, _) => ret i
  | None => raise ValueError
  end.

Definition py_getitem (l : list string) (i : nat) : M string :=
  match l !! i with
  | Some x => ret x
  | None => raise IndexError
  end.

(** [os.path.basename(self.expected_filename)]: [None] is not a path. *)
Definition expected_basename : M string :=
  e <- self ;;
  match expected_filename e with
  | Some p => ret (OsPath.basename p)
  | None => raise TypeError
  end.

(** *** URLPlaylistEntry._really_download *)

(** [await self.playlist.downloader.extract_info(...)] inside its [try]: a
    successful transfer leaves the payload at the prepared file name. *)
Definition await_extract_info (c : Collab) : M (option ytdl_result) :=
  e <- self ;;
  perform (ExtractInfo (url e)) ;;
  match extract_info c (url e) with
  | ExtractRaises x => raise (ExtractionError x)
  | ExtractNone => ret None
  | ExtractOk result =>
      f <- get_fs ;;
      modify_world (set_fs (Fs.write (prepare_filename result) (File (payload result)) f)) ;;
      ret (Some result)
  end.

Definition _really_download (c : Collab) (hash : bool) : M unit :=
  e <- self ;;
  print ("[Download] Started: " +:+ url e) ;;
  result <- await_extract_info c ;;
  print ("[Download] Complete: " +:+ url e) ;;
  match result with
  | None => raise (ExtractionErrorMsg "ytdl broke and hell if I know why")
  | Some result =>
      let unhashed_fname := prepare_filename result in
      assign_filename unhashed_fname ;;
      if hash then
        sum <- md5sum c unhashed_fname 8 ;;
        let hashed := PyStr.join (PyStr.join sum (PyStr.chars "-.")) (PyStr.rsplit "." unhashed_fname) in
        assign_filename hashed ;;
        isfile <- os_path_isfile hashed ;;
        if isfile then
          os_unlink unhashed_fname ;;
          os_rename unhashed_fname hashed
        else ret tt
      else ret tt
  end.

(** *** URLPlaylistEntry._download *)

(** [rsize]: the remote size, 0 when it cannot be obtained. *)
Definition await_rsize (c : Collab) : M Z :=
  e <- self ;;
  perform (GetHeader (url e)) ;;
  match content_length c (url e) with
  | Some n => ret n
  | None => ret 0%Z
  end.

(** The branch for the [generic] extractor. *)
Definition download_generic (c : Collab) : M unit :=
  e <- self ;;
  names <- os_listdir (download_folder e) ;;
  let flistdir := PyStr.rsplit_head "-" <$> names in
  base_name <- expected_basename ;;
  match PyStr.rsplit "." base_name with
  | [expected_fname_noex; fname_ex] =>
      if py_in expected_fname_noex flistdir then
        rsize <- await_rsize c ;;
        names' <- os_listdir (download_folder e) ;;
        i <- py_index expected_fname_noex flistdir ;;
        name <- py_getitem names' i ;;
        let lfile := OsPath.join (download_folder e) name in
        lsize <- os_path_getsize lfile ;;
        if negb (Z.eqb lsize rsize) then _really_download c true
        else assign_filename lfile
      else _really_download c true
  | _ => raise ValueError
  end.

(** The branch for every other extractor. *)
Definition download_stable (c : Collab) : M unit :=
  e <- self ;;
  ldir <- os_listdir (download_folder e) ;;
  let flistdir := PyStr.rsplit_head "." <$> ldir in
  expected_fname_base <- expected_basename ;;
  let expected_fname_noex := PyStr.rsplit_head "." expected_fname_base in
  if py_in expected_fname_base ldir then
    assign_filename (OsPath.join (download_folder e) expected_fname_base) ;;
    print ("[Download] Cached: " +:+ url e)
  else if py_in expected_fname_noex flistdir then
    print ("[Download] Cached (different extension): " +:+ url e) ;;
    i <- py_index expected_fname_noex flistdir ;;
    name <- py_getitem ldir i ;;
    let got := OsPath.join (download_folder e) name in
    assign_filename got ;;
    print ("Expected " +:+ PyStr.rsplit_last "." (default "" (expected_filename e))
           +:+ ", got " +:+ PyStr.rsplit_last "." got)
  else _really_download c false.

(** The [try] block up to, and without, the ready callbacks. *)
Definition download_body (c : Collab) : M unit :=
  e <- self ;;
  present <- os_path_exists (download_folder e) ;;
  (if present then ret tt else os_makedirs (download_folder e)) ;;
  base_name <- expected_basename ;;
  let extractor := PyStr.split_head "-" base_name in
  if String.eqb extractor "generic" then download_generic c else download_stable c.

Definition assign_is_downloading (d : bool) (s : St) : St :=
  (with_base (set_is_downloading d (base (fst s))) (fst s), snd s).

(** What [_download] does once it is past its guard: the [try] block, the
    [except] clause and the [finally] clause. *)
Definition download_attempt (c : Collab) (s : St) : St :=
  let s := assign_is_downloading true s in
  let s :=
    match download_body c s with
    | (s', Ret _) => _for_each_future cb_set_result s'
    | (s', Raise e) =>
        _for_each_future (cb_set_exception e) (fst s', emit (PrintExc e) (snd s'))
    end in
  assign_is_downloading false s.

Definition _download (c : Collab) (s : St) : St :=
  if _is_downloading (base (fst s)) then s else download_attempt c s.

(** ** OsuPlaylistEntry *)

Record OsuPlaylistEntry : Type := mkOsu {
  osu_base : BasePlaylistEntry;
  osu_id : string;
  osu_url : string;
  osu_duration : Z;
  osu_meta : list (string * pyobj)
}.

#[export] Instance Entry_Osu : Entry OsuPlaylistEntry :=
  {| base := osu_base;
     with_base := fun b e => mkOsu b (osu_id e) (osu_url e) (osu_duration e) (osu_meta e);
     base_with_base := fun _ _ => eq_refl;
     with_base_base := fun e => match e with mkOsu _ _ _ _ _ => eq_refl end;
     with_base_twice := fun _ _ _ => eq_refl |}.

(** [OsuPlaylistEntry.__init__] *)
Definition OsuPlaylistEntry_init (id : string) (meta : list (string * pyobj)) : OsuPlaylistEntry :=
  mkOsu base_init id ("https://osu.ppy.sh/s/" +:+ id) 0 meta.

(** [OsuPlaylistEntry._download]: [run_in_executor] hands [_really_download]
    to the thread pool and returns at once; the coroutine does not wait for
    it. *)
Definition Osu_download (s : OsuPlaylistEntry * World) : OsuPlaylistEntry * World :=
  if _is_downloading (base (fst s)) then s
  else
    let e := with_base (set_is_downloading true (base (fst s))) (fst s) in
    let w := set_pool (S (pool (snd s))) (snd s) in
    (with_base (set_is_downloading false (base e)) e, w).

(** What the network and the archive give one run of
    [OsuPlaylistEntry._really_download]: an exception somewhere in its [try],
    or, for each [.osu] file of the unpacked archive in [glob] order, the path
    its first [AudioFilename: ] line leads to, if it has one. *)
Inductive osz_outcome : Type :=
| OszRaises (e : exn)
| OszUnpacked (audio : list (option string)).

(** [OsuPlaylistEntry._really_download], run by a pool thread.  The
    exception it raises stays in the future [run_in_executor] returned, which
    nobody holds. *)
Definition Osu_really_download (o : osz_outcome) (s : OsuPlaylistEntry * World)
    : OsuPlaylistEntry * World :=
  let w := emit (Print ("[Download] Started: " +:+ osu_url (fst s))) (snd s) in
  let w := set_pool (Nat.pred (pool w)) w in
  match o with
  | OszRaises _ => (fst s, w)
  | OszUnpacked audio =>
      let e := fold_left
                 (fun e a => match a with
                             | Some f => with_base (set_filename (Some f) (base e)) e
                             | None => e
                             end) audio (fst s) in
      (e, emit (Print ("[Download] Complete: " +:+ osu_url (fst s))) w)
  end.

(** ** Persisting a URLPlaylistEntry *)

(** The dict [to_json] builds and [from_json] reads.  The JSON text between
    them is represented by the dict it denotes: for dicts of this shape (string
    keys; strings, numbers, booleans, [None] and dicts as values)
    [json.loads(json.dumps(data))] is [data]. *)
Record persisted_meta : Type := mkPMeta {
  pm_type : string;
  pm_id : string;
  pm_name : string
}.

Record persisted : Type := mkPersisted {
  p_version : Z;
  p_type : string;
  p_url : string;
  p_title : string;
  p_duration : Z;
  p_downloaded : bool;
  p_filename : option string;
  p_meta : list (string * persisted_meta)
}.

(** [d[k]] and [k in d] on a dict kept as an association list. *)
Fixpoint dict_get {V : Type} (k : string) (d : list (string * V)) : option V :=
  match d with
  | [] => None
  | (k', v) :: rest => if String.eqb k' k then Some v else dict_get k rest
  end.

(** One item of the dict comprehension over [self.meta]: only an object of
    the chat library has [.id] and [.name]. *)
Definition meta_item (i : string) (v : pyobj) : res (string * persisted_meta) :=
  match v with
  | Obj cls id name => Ret (i, mkPMeta cls id name)
  | Str _ => Raise AttributeError
  | PyNone => Raise AttributeError
  end.

Fixpoint meta_items (m : list (string * pyobj)) : res (list (string * persisted_meta)) :=
  match m with
  | [] => Ret []
  | (i, v) :: rest =>
      match meta_item i v with
      | Raise e => Raise e
      | Ret x =>
          match meta_items rest with
          | Raise e => Raise e
          | Ret xs => Ret (x :: xs)
          end
      end
  end.

(** [URLPlaylistEntry.to_json] *)
Definition to_json (e : URLPlaylistEntry) : res persisted :=
  match meta_items (meta e) with
  | Raise x => Raise x
  | Ret m =>
      Ret (mkPersisted 1 "URLPlaylistEntry" (url e) (title e) (duration e)
             (is_downloaded (base e)) (filename (base e)) m)
  end.

(** [bool(o)] for the objects kept in [meta]. *)
Definition obj_truthy (o : pyobj) : bool :=
  match o with
  | Obj _ _ _ => true
  | Str s => negb (String.eqb s "")
  | PyNone => false
  end.

(** [URLPlaylistEntry.from_json] (its [print(data)] left out). *)
Definition from_json (playlist : Playlist) (data : persisted) : res URLPlaylistEntry :=
  let url := p_url data in
  let title := p_title data in
  let duration := p_duration data in
  let downloaded := p_downloaded data in
  let filename := if downloaded then p_filename data else None in
  let meta : list (string * pyobj) :=
    match dict_get "channel" (p_meta data) with
    | Some c =>
        let ch := bot_get_channel playlist (pm_id c) in
        [("channel", if obj_truthy ch then ch else Str (pm_name c))]
    | None => []
    end in
  match dict_get "author" (p_meta data) with
  | Some a =>
      match dict_get "channel" meta with
      | None => Raise (KeyError "channel")
      | Some (Obj cls id name) =>
          Ret (URLPlaylistEntry_init playlist url title duration filename
                 (meta ++ [("author", server_get_member playlist (Obj cls id name) (pm_id a))]))
      | Some _ => Raise AttributeError
      end
  | None => Ret (URLPlaylistEntry_init playlist url title duration filename meta)
  end.

(** ** The event loop around one entry *)

(** One entry on the loop.  A [_download] coroutine gives control back only
    at its [await]s, which all sit inside [download_body]; what the body
    touches there (the file name, the file system, the log) no other step
    reads while [_is_downloading] is set, and what the other steps touch (the
    futures, the waiting list, the task queue) the body never reads.  So a
    coroutine is two steps: it passes its guard, and it finishes. *)
Record Sys (E : Type) : Type := mkSys {
  state : E * World;
  running : nat      (* coroutines past the guard of _download, not yet finished *)
}.
Arguments mkSys {E} state running.
Arguments state {E} s.
Arguments running {E} s.

Definition in_world {E : Type} (f : World -> World) (s : E * World) : E * World :=
  (fst s, f (snd s)).

Module URLLoop.

Inductive event : Type :=
| Request                    (* somebody calls get_ready_future() *)
| CancelHandle (h : nat)     (* the owner of handle h cancels it *)
| TaskStart                  (* the loop starts a queued _download() *)
| Finish (c : Collab).       (* the running _download() runs to its end *)

Definition step (ev : event) (m : Sys URLPlaylistEntry) : option (Sys URLPlaylistEntry) :=
  match ev with
  | Request => Some (mkSys (snd (get_ready_future (state m))) (running m))
  | CancelHandle h => Some (mkSys (in_world (cancel h) (state m)) (running m))
  | TaskStart =>
      match tasks (snd (state m)) with
      | O => None
      | S n =>
          let s := in_world (set_tasks n) (state m) in
          if _is_downloading (base (fst s)) then Some (mkSys s (running m))
          else Some (mkSys (assign_is_downloading true s) (S (running m)))
      end
  | Finish c =>
      match running m with
      | O => None
      | S n => Some (mkSys (download_attempt c (state m)) n)
      end
  end.

Fixpoint exec (evs : list event) (m : Sys URLPlaylistEntry) : option (Sys URLPlaylistEntry) :=
  match evs with
  | [] => Some m
  | ev :: rest =>
      match step ev m with
      | Some m' => exec rest m'
      | None => None
      end
  end.

(** A new entry on a loop that holds no future, task or thread yet. *)
Definition init (e : URLPlaylistEntry) (files : list (string * node)) : Sys URLPlaylistEntry :=
  mkSys (with_base base_init e, mkWorld [] 0 0 files []) 0.

End URLLoop.

Module OsuLoop.

Inductive event : Type :=
| Request
| CancelHandle (h : nat)
| TaskStart                      (* the loop runs a queued _download() *)
| ThreadDone (o : osz_outcome).  (* a pool thread finishes _really_download *)

Definition step (ev : event) (m : Sys OsuPlaylistEntry) : option (Sys OsuPlaylistEntry) :=
  match ev with
  | Request => Some (mkSys (snd (get_ready_future (state m))) (running m))
  | CancelHandle h => Some (mkSys (in_world (cancel h) (state m)) (running m))
  | TaskStart =>
      match tasks (snd (state m)) with
      | O => None
      | S n => Some (mkSys (Osu_download (in_world (set_tasks n) (state m))) (running m))
      end
  | ThreadDone o =>
      match pool (snd (state m)) with
      | O => None
      | S _ => Some (mkSys (Osu_really_download o (state m)) (running m))
      end
  end.

Fixpoint exec (evs : list event) (m : Sys OsuPlaylistEntry) : option (Sys OsuPlaylistEntry) :=
  match evs with
  | [] => Some m
  | ev :: rest =>
      match step ev m with
      | Some m' => exec rest m'
      | None => None
      end
  end.

Definition init (e : OsuPlaylistEntry) (files : list (string * node)) : Sys OsuPlaylistEntry :=
  mkSys (with_base base_init e, mkWorld [] 0 0 files []) 0.

End OsuLoop.

(** ** More of Python's text primitives *)

Module PyText.

(** The characters [str.strip()] removes, among the ASCII ones: tab to
    carriage return, the four separators, and the space. *)
Definition is_space (a : ascii) : bool :=
  let n := nat_of_ascii a in
  (Nat.leb 9 n && Nat.leb n 13 || Nat.leb 28 n && Nat.leb n 32)%bool.

Fixpoint lstrip (s : string) : string :=
  match s with
  | EmptyString => EmptyString
  | String a s' => if is_space a then lstrip s' else s
  end.

Fixpoint rstrip (s : string) : string :=
  match s with
  | EmptyString => EmptyString
  | String a s' =>
      match rstrip s' with
      | EmptyString => if is_space a then EmptyString else String a EmptyString
      | r => String a r
      end
  end.

(** [s.strip()] *)
Definition strip (s : string) : string := rstrip (lstrip s).

(** [c in s] for a character [c]. *)
Fixpoint contains (c : ascii) (s : string) : bool :=
  match s with
  | EmptyString => false
  | String a s' => (Ascii.eqb a c || contains c s')%bool
  end.

(** [s[n:len(s)]] *)
Fixpoint drop (n : nat) (s : string) : string :=
  match n, s with
  | O, _ => s
  | S n', String _ s' => drop n' s'
  | S _, EmptyString => EmptyString
  end.

(** The lines a text file yields when iterated, with universal newlines:
    [\n], [\r\n] and a lone [\r] all end a line and are read as [\n]. *)
Fixpoint readlines (s : string) : list string :=
  match s with
  | EmptyString => []
  | String a s' =>
      if Ascii.eqb a "010" then String "010" EmptyString :: readlines s'
      else if Ascii.eqb a "013" then
        match s' with
        | String b s'' =>
            if Ascii.eqb b "010" then String "010" EmptyString :: readlines s''
            else String "010" EmptyString :: readlines s'
        | EmptyString => [String "010" EmptyString]
        end
      else
        match readlines s' with
        | [] => [String a EmptyString]
        | l :: ls => String a l :: ls
        end
  end.

Definition digit (a : ascii) : option Z :=
  let n := nat_of_ascii a in
  if (Nat.leb 48 n && Nat.leb n 57)%bool then Some (Z.of_nat (n - 48)) else None.

(** Decimal digits, single underscores allowed between two digits. *)
Fixpoint digits (acc : Z) (after_digit : bool) (s : string) : option Z :=
  match s with
  | EmptyString => if after_digit then Some acc else None
  | String a s' =>
      if Ascii.eqb a "_" then (if after_digit then digits acc false s' else None)
      else
        match digit a with
        | Some d => digits (10 * acc + d) true s'
        | None => None
        end
  end.

(** [int(s)] for a string of ASCII characters; [None] is [ValueError]. *)
Definition int (s : string) : option Z :=
  match strip s with
  | String "+" r => digits 0 false r
  | String "-" r => Z.opp <$> digits 0 false r
  | t => digits 0 false t
  end.

End PyText.

(** [os.path.dirname(p)] of [posixpath]: the text up to the last separator,
    without trailing separators unless it consists of separators only. *)
Fixpoint rstrip_sep (s : string) : string :=
  match s with
  | EmptyString => EmptyString
  | String a s' =>
      match rstrip_sep s' with
      | EmptyString => if Ascii.eqb a OsPath.sep then EmptyString else String a EmptyString
      | r => String a r
      end
  end.

Definition os_path_dirname (p : string) : string :=
  match PyStr.rpartition OsPath.sep p with
  | None => ""
  | Some (b, _) =>
      match rstrip_sep b with
      | EmptyString => b +:+ "/"
      | head => head
      end
  end.

(** ** Scanning the beatmaps of an unpacked archive *)



(** ** LocalOsuPlaylistEntry *)

Record LocalOsuPlaylistEntry : Type := mkLocalOsu {
  local_base : BasePlaylistEntry;
  local_meta : list (string * pyobj);
  local_id : Z;
  local_url : string;
  local_duration : option Z;     (* unset until an AudioFilename line is read *)
  local_title : option string    (* unset until a Title line is read *)
}.

#[export] Instance Entry_LocalOsu : Entry LocalOsuPlaylistEntry :=
  {| base := local_base;
     with_base := fun b e =>
       mkLocalOsu b (local_meta e) (local_id e) (local_url e) (local_duration e) (local_title e);
     base_with_base := fun _ _ => eq_refl;
     with_base_base := fun e => match e with mkLocalOsu _ _ _ _ _ _ => eq_refl end;
     with_base_twice := fun _ _ _ => eq_refl |}.

(** What the constructor gets from outside [entry.py]: [mp3_length f] is
    [int(MP3(f).info.length)], [None] when that raises; [strerror e] is the
    text [print] shows for the [IOError]. *)
Record LocalEnv : Type := mkLocalEnv {
  mp3_length : string -> option Z;
  strerror : exn -> string
}.

Definition set_local_title (t : string) (e : LocalOsuPlaylistEntry) : LocalOsuPlaylistEntry :=
  mkLocalOsu (local_base e) (local_meta e) (local_id e) (local_url e) (local_duration e) (Some t).

Definition set_local_audio (f : string) (d : Z) (e : LocalOsuPlaylistEntry)
    : LocalOsuPlaylistEntry :=
  mkLocalOsu (set_filename (Some f) (local_base e)) (local_meta e) (local_id e) (local_url e)
    (Some d) (local_title e).

(** The [for line in f] loop of [LocalOsuPlaylistEntry.__init__]. *)
Fixpoint local_scan (env : LocalEnv) (song_path : string) (lines : list string)
    (e : LocalOsuPlaylistEntry) : LocalOsuPlaylistEntry :=
  match lines with
  | [] => e
  | line :: rest =>
      let line := PyText.strip line in
      if String.eqb line "" then local_scan env song_path rest e
      else if PyStr.startswith "AudioFilename: " line then
        let f := song_path +:+ "\" +:+ PyText.drop 15 line in
        local_scan env song_path rest (set_local_audio f (default 0%Z (mp3_length env f)) e)
      else if PyStr.startswith "Title:" line then
        local_scan env song_path rest (set_local_title (PyText.drop 6 line) e)
      else if String.eqb line "[Difficulty]" then e
      else local_scan env song_path rest e
  end.

(** [LocalOsuPlaylistEntry.__init__] *)
Definition LocalOsuPlaylistEntry_init (env : LocalEnv) (osu : string)
    (meta : list (string * pyobj)) (w : World) : World * res LocalOsuPlaylistEntry :=
  let song_path := os_path_dirname osu in
  let w := emit (Print (song_path +:+ " ..")) w in
  match PyText.int (PyStr.split_head " " (OsPath.basename song_path)) with
  | None => (w, Raise ValueError)
  | Some id =>
      let e := mkLocalOsu base_init meta id ("https://osu.ppy.sh/s/" +:+ pretty id) None None in
      match Fs.lookup osu (fs w) with
      | Some (File content) =>
          (w, Ret (local_scan env song_path (PyText.readlines content) e))
      | Some (Dir _) =>
          (emit (Print ("Error loading " +:+ song_path +:+ " "
                        +:+ strerror env (IsADirectoryError osu))) w, Ret e)
      | None =>
          (emit (Print ("Error loading " +:+ song_path +:+ " "
                        +:+ strerror env (FileNotFoundError osu))) w, Ret e)
      end
  end.

(** [get_ready_future] as a [LocalOsuPlaylistEntry] runs it: the class
    replaces the property [is_downloaded] by a method, and a bound method is
    true in [if self.is_downloaded:]. *)
Definition LocalOsu_get_ready_future (s : LocalOsuPlaylistEntry * World)
    : nat * (LocalOsuPlaylistEntry * World) :=
  let '(future, w) := new_future (snd s) in
  (future, (fst s, fst (set_result future w))).

(** ** The vocabulary of the properties *)

(** Is the future still waiting for an outcome? *)
Definition is_pending (o : option fstate) : bool :=
  match o with
  | Some Pending => true
  | _ => false
  end.

(** What one visit of the resolution pass writes to the log, by the state
    the future is in when the pass starts. *)
Definition pass_trace (ev : nat -> effect) (fut : list fstate) (h : nat) : list effect :=
  match fut !! h with
  | Some Pending => [ev h]
  | Some Cancelled => []
  | _ => [PrintExc InvalidStateError]
  end.

(** The two callbacks [_download] hands to [_for_each_future]: success
    ([None]) resolves with the entry, failure ([Some e]) with the exception. *)
Definition ready_callback {E : Type} (failure : option exn) : callback E :=
  match failure with
  | None => cb_set_result
  | Some e => cb_set_exception e
  end.

(** The state a future is in after the callback resolved it. *)
Definition outcome_state (failure : option exn) : fstate :=
  match failure with
  | None => HasResult
  | Some e => HasException e
  end.

(** The log line of that resolution. *)
Definition outcome_effect (failure : option exn) (h : nat) : effect :=
  match failure with
  | None => SetResult h
  | Some e => SetException h e
  end.

(** Assigning [self.filename]. *)
Definition with_filename (f : string) (e : URLPlaylistEntry) : URLPlaylistEntry :=
  with_base (set_filename (Some f) (base e)) e.

Module Examples.

Definition playlist : Playlist :=
  mkPlaylist "audio_cache" (fun _ => PyNone) (fun _ _ => PyNone).

(** A probe that answers [len], an extractor that writes five bytes to
    [audio_cache/generic-song.mp3], and a checksum that is always
    [deadbeef]. *)
Definition collab (len : option Z) : Collab :=
  mkCollab (fun _ => len)
           (fun _ => ExtractOk (mkResult "audio_cache/generic-song.mp3" "hello"))
           (fun _ _ => "deadbeef").

Definition stable_entry : URLPlaylistEntry :=
  URLPlaylistEntry_init playlist "http://host/v" "song" 0
    (Some "audio_cache/youtube-abc-song.mp3") [].

Definition generic_entry : URLPlaylistEntry :=
  URLPlaylistEntry_init playlist "http://host/song.mp3" "song" 0
    (Some "audio_cache/generic-song.mp3") [].

(** A world with the cache folder and the given files in it, and nothing
    else. *)
Definition world (files : list (string * node)) : World :=
  mkWorld [] 0 0 (("audio_cache", Dir 0) :: files) [].

Definition drifted : list (string * node) :=
  [("audio_cache/youtube-abc-song.m4a", File "abcd");
   ("audio_cache/youtube-abc-song.webm", File "abcdef")].

Definition hashed : list (string * node) :=
  [("audio_cache/generic-song-0badf00d.mp3", File "hello");
   ("audio_cache/generic-song-deadbeef.mp3", File "hello, world")].

End Examples.



(** What [to_json] writes for an object of [meta]. *)
Definition persist (v : pyobj) : option persisted_meta :=
  match v with
  | Obj cls id name => Some (mkPMeta cls id name)
  | _ => None
  end.

(** Effects other than the resolution of a future. *)
Definition silent (ev : effect) : bool :=
  match ev with
  | SetResult _ | SetException _ _ => false
  | _ => true
  end.

(** Does [ev] resolve handle [h]? *)
Definition resolves (h : nat) (ev : effect) : bool :=
  match ev with
  | SetResult h' => Nat.eqb h h'
  | SetException h' _ => Nat.eqb h h'
  | _ => false
  end.

(** How often the log resolves handle [h]. *)
Definition resolutions (h : nat) (l : list effect) : nat :=
  length (List.filter (resolves h) l).

(** [s'] differs from [s] at most in the file name, the flag, the file
    system and silent log lines. *)
Record frame (s s' : St) : Prop := mkFrame {
  frame_futures : futures (snd s') = futures (snd s);
  frame_tasks : tasks (snd s') = tasks (snd s);
  frame_pool : pool (snd s') = pool (snd s);
  frame_waiting : _waiting_futures (base (fst s')) = _waiting_futures (base (fst s));
  frame_log : exists l, log (snd s') = log (snd s) ++ l /\ forallb silent l = true
}.

(** A computation that only ever makes such changes. *)
Definition quiet {A : Type} (m : M A) : Prop := forall s, frame s (fst (m s)).

(** A computation that changes nothing of the entry but the three attributes
    of the base class. *)
Definition keeps_fields {A : Type} (m : M A) : Prop :=
  forall s, exists b, fst (fst (m s)) = with_base b (fst s).

(** Calls over the network in a stretch of the log: header probes and
    transfers by the extractor. *)
Definition is_probe (ev : effect) : bool :=
  match ev with GetHeader _ => true | _ => false end.

Definition is_transfer (ev : effect) : bool :=
  match ev with ExtractInfo _ => true | _ => false end.

Definition probes (l : list effect) : nat := length (List.filter is_probe l).
Definition transfers (l : list effect) : nat := length (List.filter is_transfer l).

(** A computation that makes at most [p] probes and [q] transfers. *)
Definition at_most {A : Type} (p q : nat) (m : M A) : Prop :=
  forall s, exists l, log (snd (fst (m s))) = log (snd s) ++ l
                      /\ probes l <= p /\ transfers l <= q.

(** Does the future hold an outcome? *)
Definition settled (st : fstate) : bool :=
  match st with
  | HasResult | HasException _ => true
  | Pending | Cancelled => false
  end.

(** How often a future in state [o] has been resolved. *)
Definition resolved_count (o : option fstate) : nat :=
  match o with
  | Some st => if settled st then 1 else 0
  | None => 0
  end.

(** What every reachable state of the loop around a URL entry satisfies. *)
Record Inv (m : Sys URLPlaylistEntry) : Prop := mkInv {
  inv_nodup : NoDup (_waiting_futures (base (fst (state m))));
  inv_waiting : forall h,
      h ∈ _waiting_futures (base (fst (state m))) ->
      futures (snd (state m)) !! h = Some Pending
      \/ futures (snd (state m)) !! h = Some Cancelled;
  inv_pending : forall h,
      futures (snd (state m)) !! h = Some Pending ->
      h ∈ _waiting_futures (base (fst (state m)));
  inv_once : forall h,
      resolutions h (log (snd (state m))) = resolved_count (futures (snd (state m)) !! h);
  inv_running :
    running m = if _is_downloading (base (fst (state m))) then 1 else 0;
  inv_live :
    _waiting_futures (base (fst (state m))) <> [] ->
    0 < tasks (snd (state m)) \/ 0 < running m
}.

Module Runs.

(** Two callers ask for the stable entry, the second gives up, and both
    queued tasks start: the first passes the guard, the second returns. *)
Definition requests : list URLLoop.event :=
  [URLLoop.Request; URLLoop.Request; URLLoop.CancelHandle 1;
   URLLoop.TaskStart; URLLoop.TaskStart].

Definition start : Sys URLPlaylistEntry :=
  URLLoop.init Examples.stable_entry (fs (Examples.world Examples.drifted)).

Definition waiting_state : Sys URLPlaylistEntry :=
  Eval vm_compute in default start (URLLoop.exec requests start).


(** A new osu entry. *)
Definition osu_start : Sys OsuPlaylistEntry :=
  OsuLoop.init (OsuPlaylistEntry_init "123" []) [].

End Runs.

(** * Properties *)

(** ** Readiness handles *)

Lemma pass_trace_insert_ne ev fut h h' v :
  h ≠ h' -> pass_trace ev (<[h := v]> fut) h' = pass_trace ev fut h'.
Proof.
  intros Hne. unfold pass_trace. by rewrite list_lookup_insert_ne.
Qed.

Lemma flat_map_pass_trace_insert ev fut h v l :
  h ∉ l ->
  flat_map (pass_trace ev (<[h := v]> fut)) l = flat_map (pass_trace ev fut) l.
Proof.
  induction l as [|x l IH]; intros Hnotin; [done|].
  simpl. rewrite pass_trace_insert_ne.
  - rewrite IH; [done|]. intros Hin. apply Hnotin. by apply list_elem_of_further.
  - intros ->. apply Hnotin. apply list_elem_of_here.
Qed.

Lemma bool_decide_elem_of_cons (h x : nat) (l : list nat) :
  bool_decide (h ∈ x :: l) = (bool_decide (h = x) || bool_decide (h ∈ l))%bool.
Proof.
  destruct (decide (h = x)) as [->|Hne].
  - rewrite (bool_decide_eq_true_2 (x ∈ x :: l)) by apply list_elem_of_here.
    by rewrite (bool_decide_eq_true_2 (x = x)).
  - rewrite (bool_decide_eq_false_2 _ Hne). simpl.
    apply bool_decide_ext. rewrite elem_of_cons. tauto.
Qed.

Lemma on_future_settle_pending {E : Type} v ev h (s : E * World) :
  futures (snd s) !! h = Some Pending ->
  on_future (settle v ev) h s
  = ((fst s, emit (ev h) (set_futures (<[h := v]> (futures (snd s))) (snd s))), Ret tt).
Proof.
  intros Hlk. unfold on_future, settle. by rewrite Hlk.
Qed.

Lemma on_future_settle_done {E : Type} v ev h (s : E * World) :
  is_pending (futures (snd s) !! h) = false ->
  on_future (settle v ev) h s = (s, Raise InvalidStateError).
Proof.
  intros Hlk. unfold on_future, settle.
  destruct s as [e w]; simpl in *.
  by destruct (futures w !! h) as [[| | |?]|].
Qed.

(** The loop with one of the two callbacks of the source, on any list without
    repetition. *)
Lemma for_each_loop_settle {E : Type} (v : fstate) (ev : nat -> effect) (l : list nat) :
  forall s : E * World,
    NoDup l ->
    let s' := for_each_loop (on_future (settle v ev)) l s in
    fst s' = fst s
    /\ tasks (snd s') = tasks (snd s)
    /\ pool (snd s') = pool (snd s)
    /\ fs (snd s') = fs (snd s)
    /\ log (snd s') = log (snd s) ++ flat_map (pass_trace ev (futures (snd s))) l
    /\ length (futures (snd s')) = length (futures (snd s))
    /\ forall h, futures (snd s') !! h =
                 if (bool_decide (h ∈ l) && is_pending (futures (snd s) !! h))%bool
                 then Some v else futures (snd s) !! h.
Proof.
  induction l as [|x l IH]; intros s Hnd; simpl.
  - repeat split; try done. by rewrite app_nil_r.
  - apply NoDup_cons in Hnd as [Hx Hnd].
    assert (Hskip : forall s1 : E * World,
               futures (snd s1) = futures (snd s) ->
               is_pending (futures (snd s) !! x) = false ->
               forall h,
                 (if (bool_decide (h ∈ l) && is_pending (futures (snd s1) !! h))%bool
                  then Some v else futures (snd s1) !! h)
                 = (if (bool_decide (h ∈ x :: l) && is_pending (futures (snd s) !! h))%bool
                    then Some v else futures (snd s) !! h)).
    { intros s1 -> Hnp h. rewrite bool_decide_elem_of_cons.
      destruct (decide (h = x)) as [->|Hne].
      - rewrite Hnp, !andb_false_r. done.
      - by rewrite (bool_decide_eq_false_2 _ Hne). }
    destruct (futures (snd s) !! x) as [st|] eqn:Hlk;
      [destruct (decide (st = Pending)) as [->|Hnp];
       [|destruct (decide (st = Cancelled)) as [->|Hnc]]|].
    + (* pending: the callback resolves it *)
      unfold cancelled. rewrite Hlk, on_future_settle_pending by done.
      unfold pass_trace at 1. rewrite Hlk.
      set (s1 := (fst s, emit (ev x) (set_futures (<[x:=v]> (futures (snd s))) (snd s)))).
      destruct (IH s1 Hnd) as (H1 & H2 & H3 & H4 & H5 & H6 & H7).
      repeat split; try done.
      * rewrite H5. simpl. rewrite flat_map_pass_trace_insert by done.
        by rewrite <- app_assoc.
      * rewrite H6. simpl. by rewrite length_insert.
      * intros h. rewrite H7. simpl. rewrite bool_decide_elem_of_cons.
        destruct (decide (h = x)) as [->|Hne].
        -- rewrite list_lookup_insert_eq by (by eapply lookup_lt_Some).
           rewrite Hlk. simpl.
           rewrite (bool_decide_eq_false_2 _ Hx). simpl.
           by rewrite bool_decide_eq_true_2.
        -- rewrite list_lookup_insert_ne by done.
           by rewrite (bool_decide_eq_false_2 _ Hne).
    + (* cancelled: skipped *)
      unfold cancelled. rewrite Hlk.
      unfold pass_trace at 1. rewrite Hlk.
      destruct (IH s Hnd) as (H1 & H2 & H3 & H4 & H5 & H6 & H7).
      repeat split; try done.
      intros h. rewrite H7. by apply Hskip.
    + (* already resolved: the callback raises, the loop goes on *)
      assert (Hdone : is_pending (Some st) = false) by (by destruct st).
      assert (cancelled x (snd s) = false) as -> by (unfold cancelled; rewrite Hlk; by destruct st).
      rewrite on_future_settle_done by (by rewrite Hlk).
      assert (pass_trace ev (futures (snd s)) x = [PrintExc InvalidStateError]) as ->
        by (unfold pass_trace; rewrite Hlk; by destruct st).
      set (s1 := (fst s, emit (PrintExc InvalidStateError) (snd s))).
      destruct (IH s1 Hnd) as (H1 & H2 & H3 & H4 & H5 & H6 & H7).
      repeat split; try done.
      * rewrite H5. simpl. by rewrite <- app_assoc.
      * intros h. rewrite H7. by apply Hskip.
    + (* a handle the loop does not know *)
      unfold cancelled. rewrite Hlk.
      rewrite on_future_settle_done by (by rewrite Hlk).
      unfold pass_trace at 1. rewrite Hlk.
      set (s1 := (fst s, emit (PrintExc InvalidStateError) (snd s))).
      destruct (IH s1 Hnd) as (H1 & H2 & H3 & H4 & H5 & H6 & H7).
      repeat split; try done.
      * rewrite H5. simpl. by rewrite <- app_assoc.
      * intros h. rewrite H7. by apply Hskip.
Qed.

Lemma ready_callback_settle {E : Type} (failure : option exn) :
  @ready_callback E failure = on_future (settle (outcome_state failure) (outcome_effect failure)).
Proof. by destruct failure. Qed.

(** The pass with either callback: what it leaves behind. *)
Lemma for_each_future_settle {E : Type} `{Entry E} (failure : option exn) (s : E * World) :
  NoDup (_waiting_futures (base (fst s))) ->
  let waiting := _waiting_futures (base (fst s)) in
  let s' := _for_each_future (ready_callback failure) s in
  fst s' = with_base (set_waiting_futures [] (base (fst s))) (fst s)
  /\ tasks (snd s') = tasks (snd s)
  /\ pool (snd s') = pool (snd s)
  /\ fs (snd s') = fs (snd s)
  /\ log (snd s') = log (snd s)
                    ++ flat_map (pass_trace (outcome_effect failure) (futures (snd s))) waiting
  /\ length (futures (snd s')) = length (futures (snd s))
  /\ forall h, futures (snd s') !! h =
               if (bool_decide (h ∈ waiting) && is_pending (futures (snd s) !! h))%bool
               then Some (outcome_state failure) else futures (snd s) !! h.
Proof.
  intros Hnd. unfold _for_each_future. rewrite ready_callback_settle.
  apply (for_each_loop_settle (outcome_state failure) (outcome_effect failure)
           (_waiting_futures (base (fst s)))
           (with_base (set_waiting_futures [] (base (fst s))) (fst s), snd s) Hnd).
Qed.

(** C6.  The resolution pass [_for_each_future], run with either of the two
    callbacks of [_download] on a waiting list without repetition: it leaves
    the waiting list empty; it visits the swapped-out handles in insertion
    order, so that the log grows by one [SetResult]/[SetException] for each
    pending handle, nothing for a cancelled one, and one printed traceback for
    a handle whose callback raises (it is resolved already), with the handles
    after it still visited; a cancelled handle stays cancelled and a pending
    one ends up holding the outcome. *)
Theorem for_each_future_resolution_pass {E : Type} `{Entry E}
    (failure : option exn) (s : E * World) :
  NoDup (_waiting_futures (base (fst s))) ->
  let waiting := _waiting_futures (base (fst s)) in
  let s' := _for_each_future (ready_callback failure) s in
  _waiting_futures (base (fst s')) = []
  /\ log (snd s') = log (snd s)
                    ++ flat_map (pass_trace (outcome_effect failure) (futures (snd s))) waiting
  /\ (forall h, futures (snd s) !! h = Some Cancelled ->
                futures (snd s') !! h = Some Cancelled)
  /\ (forall h, h ∈ waiting -> futures (snd s) !! h = Some Pending ->
                futures (snd s') !! h = Some (outcome_state failure))
  /\ (forall h, h ∉ waiting -> futures (snd s') !! h = futures (snd s) !! h).
Proof.
  intros Hnd waiting s'.
  destruct (for_each_future_settle failure s Hnd) as (H1 & _ & _ & _ & H5 & _ & H7).
  fold s' in H1, H5, H7. fold waiting in H5, H7.
  repeat split.
  - rewrite H1, base_with_base. done.
  - done.
  - intros h Hc. rewrite H7, Hc. simpl. by rewrite andb_false_r.
  - intros h Hin Hp. rewrite H7, Hp. by rewrite (bool_decide_eq_true_2 _ Hin).
  - intros h Hnin. rewrite H7. by rewrite (bool_decide_eq_false_2 _ Hnin).
Qed.

(** A pass over four handles: pending, cancelled, already resolved, pending. *)
Lemma for_each_future_resolution_pass_witness :
  let s := (mkBase None true [0; 1; 2; 3],
            mkWorld [Pending; Cancelled; HasResult; Pending] 0 0 [] []) in
  let s' := _for_each_future (ready_callback None) s in
  _waiting_futures (base (fst s')) = []
  /\ log (snd s') = [SetResult 0; PrintExc InvalidStateError; SetResult 3]
  /\ futures (snd s') = [HasResult; Cancelled; HasResult; HasResult].
Proof.
  pose proof (for_each_future_resolution_pass None
                (mkBase None true [0; 1; 2; 3],
                 mkWorld [Pending; Cancelled; HasResult; Pending] 0 0 [] [])) as Hpass.
  simpl in Hpass.
  assert (Hnd : NoDup [0; 1; 2; 3])
    by compute_done.
  destruct (Hpass Hnd) as (Hw & Hlog & _).
  split; [exact Hw|]. split; [exact Hlog|]. reflexivity.
Defined.

(** C9.  [get_ready_future] creates a fresh future.  The property
    [is_downloaded] holds exactly when the entry is not downloading and its
    file name is set (neither [None] nor empty), so never while
    [_is_downloading] is set.  When it holds, the future is resolved on the
    spot, and neither the waiting list nor the task queue changes; when it does
    not, the future stays pending, it becomes the last handle of the waiting
    list, and one [_download] task is queued. *)
Theorem get_ready_future_spec {E : Type} `{Entry E} (s : E * World) :
  let b := base (fst s) in
  let future := fst (get_ready_future s) in
  let s' := snd (get_ready_future s) in
  future = length (futures (snd s))
  /\ (is_downloaded b = true <->
      _is_downloading b = false /\ exists f, filename b = Some f /\ f <> "")
  /\ (_is_downloading b = true -> is_downloaded b = false)
  /\ (is_downloaded b = true ->
        futures (snd s') !! future = Some HasResult
        /\ fst s' = fst s
        /\ tasks (snd s') = tasks (snd s))
  /\ (is_downloaded b = false ->
        futures (snd s') !! future = Some Pending
        /\ _waiting_futures (base (fst s')) = _waiting_futures b ++ [future]
        /\ filename (base (fst s')) = filename b
        /\ tasks (snd s') = S (tasks (snd s))).
Proof.
  intros b future s'. subst b future s'.
  unfold get_ready_future, new_future.
  assert (Hnew : forall v : fstate,
             (futures (snd s) ++ [v]) !! length (futures (snd s)) = Some v).
  { intros v. rewrite lookup_app_r by lia. by rewrite Nat.sub_diag. }
  split; [|split; [|split; [|split]]].
  - by destruct (is_downloaded (base (fst s))).
  - unfold is_downloaded. split.
    + destruct (_is_downloading (base (fst s))); [done|].
      destruct (filename (base (fst s))) as [[|a f]|]; [done| |done].
      intros _. split; [done|]. by exists (String a f).
    + intros [Hd (f & Hf & Hne)]. rewrite Hd, Hf. by destruct f.
  - unfold is_downloaded. by intros ->.
  - intros Hdl. rewrite Hdl. simpl. unfold set_result, settle. simpl.
    rewrite Hnew. simpl. split; [|done].
    apply list_lookup_insert_eq. rewrite length_app. simpl. lia.
  - intros Hdl. rewrite Hdl. simpl. rewrite base_with_base. simpl.
    by rewrite Hnew.
Qed.

(** ** The file system and the directory listing *)

Lemma strip_prefix_app (p s r : string) :
  Fs.strip_prefix p s = Some r -> s = p +:+ r.
Proof.
  revert s. induction p as [|a p IH]; intros s; simpl.
  - by intros [= ->].
  - destruct s as [|b s]; [done|].
    destruct (Ascii.eqb_spec a b) as [->|]; [|done].
    intros Hs. by rewrite (IH _ Hs).
Qed.

Lemma string_app_assoc (a b c : string) : (a +:+ b) +:+ c = a +:+ b +:+ c.
Proof.
  induction a as [|x a IH]; [done|].
  change (String x ((a +:+ b) +:+ c) = String x (a +:+ b +:+ c)). by f_equal.
Qed.

(** The path [os.path.join] builds for a listed name is the path the listing
    came from. *)
Lemma child_name_join (d p name : string) :
  Fs.child_name d p = Some name -> OsPath.join d name = p.
Proof.
  unfold Fs.child_name.
  destruct (Fs.strip_prefix (Fs.dir_prefix d) p) as [[|a n]|] eqn:Hs; [done| |done].
  destruct (Fs.has_sep (String a n)) eqn:Hsep; [done|].
  intros [= <-]. apply strip_prefix_app in Hs. subst p.
  simpl in Hsep. apply orb_false_elim in Hsep as [Ha _].
  unfold OsPath.join, Fs.dir_prefix.
  change (PyStr.startswith "/" (String a n)) with (Ascii.eqb a OsPath.sep && true)%bool.
  rewrite Ha. simpl.
  destruct (String.eqb d "" || PyStr.endswith_char OsPath.sep d)%bool; [done|].
  by rewrite string_app_assoc.
Qed.

Lemma lookup_elem_of (p : string) (n : node) (f : Fs.t) :
  (p, n) ∈ f -> exists n', Fs.lookup p f = Some n'.
Proof.
  induction f as [|[q m] f IH]; intros Hin; [by apply elem_of_nil in Hin|].
  simpl. destruct (String.eqb_spec q p) as [->|Hne]; [by eexists|].
  apply elem_of_cons in Hin as [[= ? ?]|Hin]; [by subst|]. by apply IH.
Qed.

(** Every name of the listing leads to a node. *)
Lemma children_lookup (d name : string) (f : Fs.t) :
  name ∈ Fs.children d f -> exists n, Fs.lookup (OsPath.join d name) f = Some n.
Proof.
  unfold Fs.children. rewrite list_elem_of_omap.
  intros ([p n] & Hin & Hc). simpl in Hc.
  apply child_name_join in Hc. subst p. by eapply lookup_elem_of.
Qed.

(** [l.index(x)] is the first position that holds [x]; for a list of stems
    it is the first name with that stem. *)
Lemma first_stem (stem : string -> string) (x : string) (names : list string) :
  x ∈ stem <$> names ->
  exists i name,
    list_find (eq x) (stem <$> names) = Some (i, x)
    /\ names !! i = Some name
    /\ stem name = x
    /\ forall j name', names !! j = Some name' -> j < i -> stem name' <> x.
Proof.
  intros Hin.
  destruct (list_find_elem_of (eq x) (stem <$> names) x Hin eq_refl) as [[i y] Hfind].
  pose proof Hfind as Hfind'.
  apply list_find_Some in Hfind as (Hi & <- & Hmin).
  rewrite list_lookup_fmap in Hi.
  destruct (names !! i) as [name|] eqn:Hname; [|done].
  injection Hi as Hi.
  exists i, name. repeat split; try done.
  intros j name' Hj Hlt Heq. apply (Hmin j (stem name')); [|done|done].
  by rewrite list_lookup_fmap, Hj.
Qed.

(** ** The cache decision of [_download] *)

Lemma fs_emit (ev : effect) (w : World) : fs (emit ev w) = fs w.
Proof. done. Qed.

Lemma fs_set_fs (f : list (string * node)) (w : World) : fs (set_fs f w) = f.
Proof. done. Qed.

(** Unfolding the monad of the coroutine bodies. *)
Ltac run_body_step :=
  progress
    (unfold bind, self, get_fs, ret, raise, perform, print, modify_world,
       assign_filename, os_path_exists, os_listdir, os_path_getsize,
       expected_basename, py_index, py_getitem, await_rsize, Fs.exists_;
     cbn beta iota zeta delta [fst snd fs]).

(** The same, using the equations [tac] rewrites with on the way. *)
Ltac run_body_with tac := repeat (run_body_step || tac).

Section CacheDecision.

Variable c : Collab.
Variable e : URLPlaylistEntry.
Variable w : World.
Variable p : string.
Variable n : nat.

Hypothesis Hexpected : expected_filename e = Some p.
Hypothesis Hfolder : Fs.lookup (download_folder e) (fs w) = Some (Dir n).

Let folder : string := download_folder e.
Let ldir : list string := Fs.children folder (fs w).
Let expected_fname_base : string := OsPath.basename p.

(** Past the folder check, [_download] branches on the extractor prefix. *)
Lemma download_body_dispatch :
  download_body c (e, w)
  = if String.eqb (PyStr.split_head "-" expected_fname_base) "generic"
    then download_generic c (e, w) else download_stable c (e, w).
Proof.
  unfold download_body. run_body_with ltac:(rewrite Hfolder || rewrite Hexpected).
  subst expected_fname_base. by destruct (String.eqb _ _).
Qed.

Lemma download_stable_exact :
  expected_fname_base ∈ ldir ->
  download_stable c (e, w)
  = ((with_filename (OsPath.join folder expected_fname_base) e,
      emit (Print ("[Download] Cached: " +:+ url e)) w), Ret tt).
Proof.
  intros Hin. unfold download_stable. run_body_with ltac:(rewrite Hfolder || rewrite Hexpected).
  unfold py_in. rewrite bool_decide_eq_true_2 by done. done.
Qed.

Lemma download_stable_stem :
  expected_fname_base ∉ ldir ->
  PyStr.rsplit_head "." expected_fname_base ∈ PyStr.rsplit_head "." <$> ldir ->
  exists i name,
    ldir !! i = Some name
    /\ PyStr.rsplit_head "." name = PyStr.rsplit_head "." expected_fname_base
    /\ (forall j name', ldir !! j = Some name' -> j < i ->
          PyStr.rsplit_head "." name' <> PyStr.rsplit_head "." expected_fname_base)
    /\ download_stable c (e, w)
       = ((with_filename (OsPath.join folder name) e,
           emit (Print ("Expected " +:+ PyStr.rsplit_last "." p +:+ ", got "
                        +:+ PyStr.rsplit_last "." (OsPath.join folder name)))
             (emit (Print ("[Download] Cached (different extension): " +:+ url e)) w)),
          Ret tt).
Proof.
  intros Hnin Hin.
  destruct (first_stem _ _ _ Hin) as (i & name & Hfind & Hi & Hstem & Hmin).
  exists i, name. repeat split; try done.
  unfold download_stable. run_body_with ltac:(rewrite Hfolder || rewrite Hexpected).
  unfold py_in. rewrite bool_decide_eq_false_2 by done.
  rewrite bool_decide_eq_true_2 by done.
  fold folder. fold ldir. fold expected_fname_base. simpl.
  rewrite Hfind. simpl. rewrite Hi. done.
Qed.

Lemma download_stable_miss :
  expected_fname_base ∉ ldir ->
  PyStr.rsplit_head "." expected_fname_base ∉ PyStr.rsplit_head "." <$> ldir ->
  download_stable c (e, w) = _really_download c false (e, w).
Proof.
  intros Hnin Hnin'. unfold download_stable. run_body_with ltac:(rewrite Hfolder || rewrite Hexpected).
  unfold py_in. rewrite !bool_decide_eq_false_2 by done. done.
Qed.

Lemma download_generic_miss (expected_fname_noex fname_ex : string) :
  PyStr.rsplit "." expected_fname_base = [expected_fname_noex; fname_ex] ->
  expected_fname_noex ∉ PyStr.rsplit_head "-" <$> ldir ->
  download_generic c (e, w) = _really_download c true (e, w).
Proof.
  intros Hsplit Hnin. unfold download_generic.
  run_body_with ltac:(rewrite Hfolder || rewrite Hexpected).
  fold expected_fname_base. rewrite Hsplit.
  unfold py_in. rewrite bool_decide_eq_false_2 by done. done.
Qed.

(** With a candidate in the listing: the candidate is the first name with
    the expected stem, its size is compared with the remote size, and that
    alone decides between reuse and a hashed download. *)
Lemma download_generic_candidate (expected_fname_noex fname_ex : string) :
  PyStr.rsplit "." expected_fname_base = [expected_fname_noex; fname_ex] ->
  expected_fname_noex ∈ PyStr.rsplit_head "-" <$> ldir ->
  exists i name nd,
    ldir !! i = Some name
    /\ PyStr.rsplit_head "-" name = expected_fname_noex
    /\ (forall j name', ldir !! j = Some name' -> j < i ->
          PyStr.rsplit_head "-" name' <> expected_fname_noex)
    /\ Fs.lookup (OsPath.join folder name) (fs w) = Some nd
    /\ download_generic c (e, w)
       = if Z.eqb (Fs.size nd) (default 0%Z (content_length c (url e)))
         then ((with_filename (OsPath.join folder name) e, emit (GetHeader (url e)) w), Ret tt)
         else _really_download c true (e, emit (GetHeader (url e)) w).
Proof.
  intros Hsplit Hin.
  destruct (first_stem _ _ _ Hin) as (i & name & Hfind & Hi & Hstem & Hmin).
  assert (Hname : name ∈ ldir) by (apply list_elem_of_lookup; by exists i).
  destruct (children_lookup _ _ _ Hname) as [nd Hnd].
  exists i, name, nd. repeat split; try done.
  subst folder ldir expected_fname_base.
  unfold download_generic.
  run_body_with ltac:(rewrite Hfolder || rewrite Hexpected).
  rewrite Hsplit.
  unfold py_in. rewrite bool_decide_eq_true_2 by done.
  destruct (content_length c (url e)) as [rsize|] eqn:Hcl;
    cbn beta iota zeta delta [fst snd fs emit]; rewrite Hcl;
    run_body_with ltac:(rewrite fs_emit || rewrite Hfolder || rewrite Hfind
                        || rewrite Hi || rewrite Hnd);
    simpl default; by destruct (Z.eqb (Fs.size nd) _).
Qed.

End CacheDecision.

(** C8.  For an entry whose expected file name does not start with the
    [generic] extractor prefix, with its download folder present: when the
    expected base name is in the listing, the file of that name in the folder
    becomes [filename] and nothing else happens but the [Cached] line; else,
    when some name of the listing has the stem of the expected base name, the
    file of such a name becomes [filename] and the two lines about the changed
    extension are printed; else [_download] does what [_really_download] does
    without hashing. *)
Theorem download_stable_cache_decision (c : Collab) (e : URLPlaylistEntry) (w : World)
    (p : string) (n : nat) :
  expected_filename e = Some p ->
  Fs.lookup (download_folder e) (fs w) = Some (Dir n) ->
  PyStr.split_head "-" (OsPath.basename p) <> "generic" ->
  let folder := download_folder e in
  let ldir := Fs.children folder (fs w) in
  let expected_fname_base := OsPath.basename p in
  let expected_fname_noex := PyStr.rsplit_head "." expected_fname_base in
  (expected_fname_base ∈ ldir ->
     download_body c (e, w)
     = ((with_filename (OsPath.join folder expected_fname_base) e,
         emit (Print ("[Download] Cached: " +:+ url e)) w), Ret tt))
  /\ (expected_fname_base ∉ ldir ->
      expected_fname_noex ∈ PyStr.rsplit_head "." <$> ldir ->
      exists name,
        name ∈ ldir
        /\ PyStr.rsplit_head "." name = expected_fname_noex
        /\ download_body c (e, w)
           = ((with_filename (OsPath.join folder name) e,
               emit (Print ("Expected " +:+ PyStr.rsplit_last "." p +:+ ", got "
                            +:+ PyStr.rsplit_last "." (OsPath.join folder name)))
                 (emit (Print ("[Download] Cached (different extension): " +:+ url e)) w)),
              Ret tt))
  /\ (expected_fname_base ∉ ldir ->
      expected_fname_noex ∉ PyStr.rsplit_head "." <$> ldir ->
      download_body c (e, w) = _really_download c false (e, w)).
Proof.
  intros Hexp Hfolder Hstable folder ldir expected_fname_base expected_fname_noex.
  rewrite (download_body_dispatch c e w p n Hexp Hfolder).
  apply String.eqb_neq in Hstable. rewrite Hstable.
  split; [|split].
  - by apply (download_stable_exact c e w p n).
  - intros Hnin Hin.
    destruct (download_stable_stem c e w p n Hexp Hfolder Hnin Hin)
      as (i & name & Hi & Hstem & _ & Hrun).
    exists name. split; [|done]. apply list_elem_of_lookup. by exists i.
  - by apply (download_stable_miss c e w p n).
Qed.

(** C10.  Both lookups by stem settle on the first name of the listing that
    has the stem.  In the [generic] branch the candidate whose size decides is
    at the first position with the expected stem, and [_download] either makes
    exactly that file the [filename] or downloads; in the other branch, when
    the exact name is missing, the file at the first position with the
    expected stem becomes the [filename].  No name at an earlier position has
    the stem, and names at later positions play no part. *)
Theorem stem_lookup_takes_first_match (c : Collab) (e : URLPlaylistEntry) (w : World)
    (p : string) (n : nat) :
  expected_filename e = Some p ->
  Fs.lookup (download_folder e) (fs w) = Some (Dir n) ->
  let folder := download_folder e in
  let ldir := Fs.children folder (fs w) in
  let expected_fname_base := OsPath.basename p in
  (forall expected_fname_noex fname_ex,
      PyStr.split_head "-" expected_fname_base = "generic" ->
      PyStr.rsplit "." expected_fname_base = [expected_fname_noex; fname_ex] ->
      expected_fname_noex ∈ PyStr.rsplit_head "-" <$> ldir ->
      exists i name,
        ldir !! i = Some name
        /\ PyStr.rsplit_head "-" name = expected_fname_noex
        /\ (forall j name', ldir !! j = Some name' -> j < i ->
              PyStr.rsplit_head "-" name' <> expected_fname_noex)
        /\ (download_body c (e, w)
            = ((with_filename (OsPath.join folder name) e, emit (GetHeader (url e)) w), Ret tt)
            \/ download_body c (e, w)
               = _really_download c true (e, emit (GetHeader (url e)) w)))
  /\ (PyStr.split_head "-" expected_fname_base <> "generic" ->
      expected_fname_base ∉ ldir ->
      PyStr.rsplit_head "." expected_fname_base ∈ PyStr.rsplit_head "." <$> ldir ->
      exists i name,
        ldir !! i = Some name
        /\ PyStr.rsplit_head "." name = PyStr.rsplit_head "." expected_fname_base
        /\ (forall j name', ldir !! j = Some name' -> j < i ->
              PyStr.rsplit_head "." name' <> PyStr.rsplit_head "." expected_fname_base)
        /\ filename (base (fst (fst (download_body c (e, w)))))
           = Some (OsPath.join folder name)).
Proof.
  intros Hexp Hfolder folder ldir expected_fname_base.
  rewrite (download_body_dispatch c e w p n Hexp Hfolder).
  split.
  - intros noex ext Hgen Hsplit Hin.
    fold expected_fname_base. rewrite Hgen. simpl.
    destruct (download_generic_candidate c e w p n Hexp Hfolder noex ext Hsplit Hin)
      as (i & name & nd & Hi & Hstem & Hmin & _ & Hrun).
    exists i, name. repeat split; try done.
    rewrite Hrun. destruct (Z.eqb _ _); [by left|by right].
  - intros Hstable Hnin Hin.
    apply String.eqb_neq in Hstable. fold expected_fname_base. rewrite Hstable.
    destruct (download_stable_stem c e w p n Hexp Hfolder Hnin Hin)
      as (i & name & Hi & Hstem & Hmin & Hrun).
    exists i, name. repeat split; try done.
    by rewrite Hrun.
Qed.

(** C7.  In the [generic] branch with a name of the expected stem in the
    listing: the remote size is the probed content length, and 0 when the probe
    fails, which does not end the attempt; when the size of the candidate file
    equals it, the candidate becomes [filename] and the probe is the only thing
    that happened; when it differs, [_download] goes on as [_really_download]
    with hashing.  So with a failed probe and a candidate that is not empty,
    [_really_download] with hashing runs. *)
Theorem generic_size_check (c : Collab) (e : URLPlaylistEntry) (w : World)
    (p : string) (n : nat) (expected_fname_noex fname_ex : string) :
  expected_filename e = Some p ->
  Fs.lookup (download_folder e) (fs w) = Some (Dir n) ->
  PyStr.split_head "-" (OsPath.basename p) = "generic" ->
  PyStr.rsplit "." (OsPath.basename p) = [expected_fname_noex; fname_ex] ->
  expected_fname_noex ∈ PyStr.rsplit_head "-" <$> Fs.children (download_folder e) (fs w) ->
  exists name nd,
    name ∈ Fs.children (download_folder e) (fs w)
    /\ PyStr.rsplit_head "-" name = expected_fname_noex
    /\ Fs.lookup (OsPath.join (download_folder e) name) (fs w) = Some nd
    /\ let lfile := OsPath.join (download_folder e) name in
       let lsize := Fs.size nd in
       let rsize := match content_length c (url e) with Some len => len | None => 0%Z end in
       let probed := emit (GetHeader (url e)) w in
       (lsize = rsize ->
          download_body c (e, w) = ((with_filename lfile e, probed), Ret tt))
       /\ (lsize <> rsize ->
             download_body c (e, w) = _really_download c true (e, probed))
       /\ (content_length c (url e) = None -> (0 < lsize)%Z ->
             download_body c (e, w) = _really_download c true (e, probed)).
Proof.
  intros Hexp Hfolder Hgen Hsplit Hin.
  destruct (download_generic_candidate c e w p n Hexp Hfolder _ _ Hsplit Hin)
    as (i & name & nd & Hi & Hstem & _ & Hnd & Hrun).
  exists name, nd. split; [apply list_elem_of_lookup; by exists i|].
  split; [done|]. split; [done|].
  intros lfile lsize rsize probed.
  rewrite (download_body_dispatch c e w p n Hexp Hfolder), Hgen. simpl String.eqb. cbv iota.
  assert (Hr : default 0%Z (content_length c (url e)) = rsize)
    by (subst rsize; by destruct (content_length c (url e))).
  rewrite Hrun, Hr. subst lfile lsize probed.
  split; [|split].
  - intros Heq. by rewrite (proj2 (Z.eqb_eq _ _) Heq).
  - intros Hne. by rewrite (proj2 (Z.eqb_neq _ _) Hne).
  - intros Hnone Hpos.
    assert (Hne : Fs.size nd <> rsize) by (subst rsize; rewrite Hnone; lia).
    by rewrite (proj2 (Z.eqb_neq _ _) Hne).
Qed.

(** *** The cache decision on a small cache folder *)

(** The expected [.mp3] is gone, an [.m4a] and a [.webm] of the same stem are
    there: the [.m4a], listed first, is taken. *)
Lemma download_stable_cache_decision_witness :
  exists name,
    name ∈ ["youtube-abc-song.m4a"; "youtube-abc-song.webm"]
    /\ PyStr.rsplit_head "." name = "youtube-abc-song"
    /\ download_body (Examples.collab None) (Examples.stable_entry, Examples.world Examples.drifted)
       = ((with_filename (OsPath.join "audio_cache" name) Examples.stable_entry,
           emit (Print ("Expected mp3, got " +:+ PyStr.rsplit_last "." (OsPath.join "audio_cache" name)))
             (emit (Print "[Download] Cached (different extension): http://host/v")
                (Examples.world Examples.drifted))),
          Ret tt).
Proof.
  destruct (download_stable_cache_decision (Examples.collab None) Examples.stable_entry
              (Examples.world Examples.drifted) "audio_cache/youtube-abc-song.mp3" 0
              eq_refl eq_refl ltac:(discriminate)) as (_ & Hstem & _).
  apply Hstem; compute_done.
Defined.

(** Two hashed files of the expected stem: the first of the listing is the
    candidate. *)
Lemma stem_lookup_takes_first_match_witness :
  exists i name,
    ["generic-song-0badf00d.mp3"; "generic-song-deadbeef.mp3"] !! i = Some name
    /\ PyStr.rsplit_head "-" name = "generic-song"
    /\ (forall j name',
           ["generic-song-0badf00d.mp3"; "generic-song-deadbeef.mp3"] !! j = Some name' ->
           j < i -> PyStr.rsplit_head "-" name' <> "generic-song")
    /\ (download_body (Examples.collab (Some 12%Z))
          (Examples.generic_entry, Examples.world Examples.hashed)
        = ((with_filename (OsPath.join "audio_cache" name) Examples.generic_entry,
            emit (GetHeader "http://host/song.mp3") (Examples.world Examples.hashed)), Ret tt)
        \/ download_body (Examples.collab (Some 12%Z))
             (Examples.generic_entry, Examples.world Examples.hashed)
           = _really_download (Examples.collab (Some 12%Z)) true
               (Examples.generic_entry,
                emit (GetHeader "http://host/song.mp3") (Examples.world Examples.hashed))).
Proof.
  destruct (stem_lookup_takes_first_match (Examples.collab (Some 12%Z)) Examples.generic_entry
              (Examples.world Examples.hashed) "audio_cache/generic-song.mp3" 0
              eq_refl eq_refl) as (Hgeneric & _).
  apply (Hgeneric "generic-song" "mp3"); [reflexivity | reflexivity | compute_done].
Defined.

(** The probe fails and the candidate has five bytes. *)
Lemma generic_size_check_witness :
  exists name nd,
    name ∈ ["generic-song-0badf00d.mp3"; "generic-song-deadbeef.mp3"]
    /\ PyStr.rsplit_head "-" name = "generic-song"
    /\ Fs.lookup (OsPath.join "audio_cache" name) (fs (Examples.world Examples.hashed)) = Some nd
    /\ (Fs.size nd = 0%Z ->
          download_body (Examples.collab None)
            (Examples.generic_entry, Examples.world Examples.hashed)
          = ((with_filename (OsPath.join "audio_cache" name) Examples.generic_entry,
              emit (GetHeader "http://host/song.mp3") (Examples.world Examples.hashed)), Ret tt))
    /\ (Fs.size nd <> 0%Z ->
          download_body (Examples.collab None)
            (Examples.generic_entry, Examples.world Examples.hashed)
          = _really_download (Examples.collab None) true
              (Examples.generic_entry,
               emit (GetHeader "http://host/song.mp3") (Examples.world Examples.hashed)))
    /\ (None = @None Z -> (0 < Fs.size nd)%Z ->
          download_body (Examples.collab None)
            (Examples.generic_entry, Examples.world Examples.hashed)
          = _really_download (Examples.collab None) true
              (Examples.generic_entry,
               emit (GetHeader "http://host/song.mp3") (Examples.world Examples.hashed))).
Proof.
  apply (generic_size_check (Examples.collab None) Examples.generic_entry
           (Examples.world Examples.hashed) "audio_cache/generic-song.mp3" 0
           "generic-song" "mp3");
    [reflexivity | reflexivity | reflexivity | reflexivity | compute_done].
Defined.

(** ** The hashed download *)

(** What [_really_download] with hashing does after a successful transfer
    when no file has the hashed name yet: it only assigns [filename]; the
    payload stays under the name the extractor gave it. *)
Lemma really_download_hash_fresh (c : Collab) (e : URLPlaylistEntry) (w : World)
    (result : ytdl_result) :
  extract_info c (url e) = ExtractOk result ->
  let unhashed_fname := prepare_filename result in
  let hashed := PyStr.join (PyStr.join (md5 c (payload result) 8) (PyStr.chars "-."))
                  (PyStr.rsplit "." unhashed_fname) in
  let files := Fs.write unhashed_fname (File (payload result)) (fs w) in
  Fs.lookup unhashed_fname files = Some (File (payload result)) ->
  Fs.isfile hashed files = false ->
  _really_download c true (e, w)
  = ((with_filename hashed e,
      emit (Print ("[Download] Complete: " +:+ url e))
        (set_fs files
           (emit (ExtractInfo (url e))
              (emit (Print ("[Download] Started: " +:+ url e)) w)))), Ret tt).
Proof.
  intros Hextract unhashed_fname hashed files Hwritten Hfresh.
  unfold _really_download, await_extract_info, md5sum, os_path_isfile.
  subst unhashed_fname hashed files.
  run_body_with ltac:(rewrite Hextract || rewrite fs_emit || rewrite fs_set_fs
                      || rewrite Hwritten || rewrite Hfresh).
  unfold with_filename. by rewrite base_with_base, with_base_twice.
Qed.

(** C1, on a cache folder without the hashed name.  The generic entry is
    downloaded with hashing: the extractor leaves the payload at
    [audio_cache/generic-song.mp3], [filename] becomes
    [audio_cache/generic-song-deadbeef.mp3], no rename is attempted, no file
    has the hashed name afterwards, and the payload is still under the unhashed
    name. *)
Theorem really_download_hash_leaves_unhashed :
  let s := (Examples.generic_entry, Examples.world []) in
  let out := _really_download (Examples.collab None) true s in
  snd out = Ret tt
  /\ filename (base (fst (fst out))) = Some "audio_cache/generic-song-deadbeef.mp3"
  /\ Fs.exists_ "audio_cache/generic-song-deadbeef.mp3" (fs (snd (fst out))) = false
  /\ Fs.lookup "audio_cache/generic-song.mp3" (fs (snd (fst out))) = Some (File "hello")
  /\ log (snd (fst out))
     = [Print "[Download] Started: http://host/song.mp3";
        ExtractInfo "http://host/song.mp3";
        Print "[Download] Complete: http://host/song.mp3"].
Proof. vm_compute. repeat split. Qed.

(** The other arm: a file has the hashed name already.  The fresh file is
    unlinked and then the rename of the unlinked file raises. *)
Lemma really_download_hash_collision_raises :
  let s := (Examples.generic_entry, Examples.world Examples.hashed) in
  let out := _really_download (Examples.collab None) true s in
  snd out = Raise (FileNotFoundError "audio_cache/generic-song.mp3")
  /\ filename (base (fst (fst out))) = Some "audio_cache/generic-song-deadbeef.mp3"
  /\ Fs.lookup "audio_cache/generic-song-deadbeef.mp3" (fs (snd (fst out)))
     = Some (File "hello, world")
  /\ Fs.exists_ "audio_cache/generic-song.mp3" (fs (snd (fst out))) = false
  /\ log (snd (fst out))
     = [Print "[Download] Started: http://host/song.mp3";
        ExtractInfo "http://host/song.mp3";
        Print "[Download] Complete: http://host/song.mp3";
        Unlink "audio_cache/generic-song.mp3";
        Rename "audio_cache/generic-song.mp3" "audio_cache/generic-song-deadbeef.mp3"].
Proof. vm_compute. repeat split. Qed.

(** C2, on the same input.  One caller waits for the generic entry and
    [_download] runs on an empty cache folder: the caller's future is resolved
    with the entry, [_is_downloading] is reset, and [filename] names a path at
    which nothing exists. *)
Theorem download_reports_success_without_file :
  let s := snd (get_ready_future (Examples.generic_entry, Examples.world [])) in
  let s' := _download (Examples.collab None) s in
  futures (snd s') = [HasResult]
  /\ _waiting_futures (base (fst s')) = []
  /\ _is_downloading (base (fst s')) = false
  /\ filename (base (fst s')) = Some "audio_cache/generic-song-deadbeef.mp3"
  /\ Fs.exists_ "audio_cache/generic-song-deadbeef.mp3" (fs (snd s')) = false.
Proof. vm_compute. repeat split. Qed.

(** ** Persisting and restoring *)





(** ** What the body of a download leaves alone *)

Lemma frame_refl (s : St) : frame s s.
Proof.
  split; try done. exists []. by rewrite app_nil_r.
Qed.

Lemma frame_trans (s1 s2 s3 : St) : frame s1 s2 -> frame s2 s3 -> frame s1 s3.
Proof.
  intros [F1 T1 P1 W1 (l1 & L1 & S1)] [F2 T2 P2 W2 (l2 & L2 & S2)].
  split; try congruence.
  exists (l1 ++ l2). split.
  - by rewrite L2, L1, <- app_assoc.
  - rewrite forallb_app. by rewrite S1, S2.
Qed.

Lemma quiet_ret {A : Type} (a : A) : quiet (ret a).
Proof. intros s. apply frame_refl. Qed.

Lemma quiet_raise {A : Type} (x : exn) : quiet (@raise A x).
Proof. intros s. apply frame_refl. Qed.

Lemma quiet_bind {A B : Type} (m : M A) (k : A -> M B) :
  quiet m -> (forall a, quiet (k a)) -> quiet (bind m k).
Proof.
  intros Hm Hk s. unfold bind. specialize (Hm s).
  destruct (m s) as [s' [a|x]]; simpl in *; [|done].
  eapply frame_trans; [exact Hm|apply Hk].
Qed.

Lemma quiet_self : quiet self.
Proof. intros s. apply frame_refl. Qed.

Lemma quiet_get_fs : quiet get_fs.
Proof. intros s. apply frame_refl. Qed.

Lemma quiet_set_fs (f : list (string * node)) : quiet (modify_world (set_fs f)).
Proof.
  intros s. split; try done. exists []. by rewrite app_nil_r.
Qed.

Lemma quiet_perform (ev : effect) : silent ev = true -> quiet (perform ev).
Proof.
  intros Hs s. split; try done. exists [ev]. simpl. by rewrite Hs.
Qed.

Lemma quiet_assign_filename (f : string) : quiet (assign_filename f).
Proof.
  intros s. split; simpl; rewrite ?base_with_base; try done.
  exists []. by rewrite app_nil_r.
Qed.

(** Composite bodies are quiet because their parts are. *)
Ltac quiet_step :=
  first
    [ apply quiet_ret | apply quiet_raise | apply quiet_self | apply quiet_get_fs
    | apply quiet_set_fs | apply quiet_assign_filename
    | apply quiet_perform; reflexivity
    | apply quiet_bind; [|intros ?]
    | match goal with
      | |- quiet (match ?x with _ => _ end) => destruct x
      | |- quiet (if ?b then _ else _) => destruct b
      end ].

Ltac quiet_auto := repeat quiet_step.

Lemma quiet_really_download (c : Collab) (hash : bool) : quiet (_really_download c hash).
Proof.
  unfold _really_download, await_extract_info, md5sum, os_path_isfile, os_unlink,
    os_rename, print.
  quiet_auto.
Qed.

Lemma quiet_download_body (c : Collab) : quiet (download_body c).
Proof.
  unfold download_body, download_generic, download_stable, os_path_exists, os_makedirs,
    os_listdir, os_path_getsize, expected_basename, await_rsize, py_index, py_getitem, print.
  quiet_auto; apply quiet_really_download.
Qed.

(** ** One download attempt *)

Lemma resolutions_app (h : nat) (l1 l2 : list effect) :
  resolutions h (l1 ++ l2) = resolutions h l1 + resolutions h l2.
Proof.
  unfold resolutions. rewrite List.filter_app. apply List.length_app.
Qed.

Lemma resolutions_silent (h : nat) (l : list effect) :
  forallb silent l = true -> resolutions h l = 0.
Proof.
  induction l as [|ev l IH]; [done|]. simpl.
  intros [Hev Hl]%andb_prop. unfold resolutions in *. simpl.
  assert (resolves h ev = false) as -> by (by destruct ev).
  by apply IH.
Qed.

Lemma resolves_outcome_effect (failure : option exn) (h x : nat) :
  resolves h (outcome_effect failure x) = Nat.eqb h x.
Proof. by destruct failure. Qed.

(** The pass resolves a handle once if it is waiting and pending, and not at
    all otherwise. *)
Lemma resolutions_pass_trace (failure : option exn) (fut : list fstate) (h : nat)
    (waiting : list nat) :
  NoDup waiting ->
  resolutions h (flat_map (pass_trace (outcome_effect failure) fut) waiting)
  = if (bool_decide (h ∈ waiting) && is_pending (fut !! h))%bool then 1 else 0.
Proof.
  induction waiting as [|x l IH]; intros Hnd; [done|].
  apply NoDup_cons in Hnd as [Hx Hnd].
  simpl. rewrite resolutions_app, IH by done.
  rewrite bool_decide_elem_of_cons.
  destruct (decide (h = x)) as [->|Hne].
  - rewrite (bool_decide_eq_true_2 (x = x)) by done.
    rewrite (bool_decide_eq_false_2 _ Hx). simpl.
    unfold pass_trace. destruct (fut !! x) as [[| | |?]|]; simpl; try done.
    unfold resolutions. simpl. rewrite resolves_outcome_effect, Nat.eqb_refl. done.
  - rewrite (bool_decide_eq_false_2 _ Hne). simpl.
    assert (resolutions h (pass_trace (outcome_effect failure) fut x) = 0) as ->; [|done].
    unfold pass_trace. destruct (fut !! x) as [[| | |?]|]; simpl; try done.
    unfold resolutions. simpl. rewrite resolves_outcome_effect.
    by rewrite (proj2 (Nat.eqb_neq h x) Hne).
Qed.

(** One attempt, whatever the collaborators do: the waiting list is left
    empty and [_is_downloading] reset; between its start and its pass the log
    grows by silent lines only; then every waiting handle that is pending gets
    the one outcome of the attempt, and no other future changes. *)
Lemma download_attempt_spec (c : Collab) (s : St) :
  NoDup (_waiting_futures (base (fst s))) ->
  exists (failure : option exn) (l : list effect),
    let waiting := _waiting_futures (base (fst s)) in
    let s' := download_attempt c s in
    _waiting_futures (base (fst s')) = []
    /\ _is_downloading (base (fst s')) = false
    /\ tasks (snd s') = tasks (snd s)
    /\ pool (snd s') = pool (snd s)
    /\ length (futures (snd s')) = length (futures (snd s))
    /\ forallb silent l = true
    /\ log (snd s') = log (snd s) ++ l
                      ++ flat_map (pass_trace (outcome_effect failure) (futures (snd s))) waiting
    /\ forall h, futures (snd s') !! h =
                 if (bool_decide (h ∈ waiting) && is_pending (futures (snd s) !! h))%bool
                 then Some (outcome_state failure) else futures (snd s) !! h.
Proof.
  intros Hnd. unfold download_attempt.
  set (s1 := assign_is_downloading true s).
  pose proof (quiet_download_body c s1) as Hframe.
  destruct (download_body c s1) as [s2 r] eqn:Hbody. simpl in Hframe.
  assert (Hs1 : frame s s1).
  { split; unfold s1, assign_is_downloading; simpl; try done.
    exists []. by rewrite app_nil_r. }
  (* the state the pass starts from, and the outcome it hands out *)
  assert (exists (failure : option exn) (s2' : St),
             frame s s2'
             /\ match r with
                | Ret _ => _for_each_future cb_set_result s2
                | Raise x => _for_each_future (cb_set_exception x)
                               (fst s2, emit (PrintExc x) (snd s2))
                end = _for_each_future (ready_callback failure) s2')
    as (failure & s2' & Hs2 & ->).
  { destruct r as [u|x].
    - exists None, s2. split; [|done]. by eapply frame_trans.
    - exists (Some x), (fst s2, emit (PrintExc x) (snd s2)). split; [|done].
      eapply frame_trans; [exact Hs1|]. eapply frame_trans; [exact Hframe|].
      split; try done. by exists [PrintExc x]. }
  destruct Hs2 as [F T P W (l & L & S)].
  assert (Hnd' : NoDup (_waiting_futures (base (fst s2')))) by (by rewrite W).
  destruct (for_each_future_settle failure s2' Hnd') as (H1 & H2 & H3 & H4 & H5 & H6 & H7).
  exists failure, l. unfold assign_is_downloading. cbn [fst snd].
  rewrite !base_with_base, H1, base_with_base. simpl.
  repeat split; try congruence.
  - rewrite H5, L, W, F. by rewrite <- app_assoc.
  - intros h. rewrite H7, W, F. done.
Qed.

(** ** The event loop: what holds in every reachable state *)

Lemma lookup_snoc (l : list fstate) (x : fstate) (h : nat) :
  (l ++ [x]) !! h = if decide (h = length l) then Some x else l !! h.
Proof.
  destruct (decide (h = length l)) as [->|Hne].
  - rewrite lookup_app_r by lia. by rewrite Nat.sub_diag.
  - destruct (decide (h < length l)) as [Hlt|Hge].
    + by rewrite lookup_app_l.
    + rewrite !lookup_ge_None_2; [done|lia|rewrite length_app; simpl; lia].
Qed.

Lemma lookup_snoc_insert (l : list fstate) (x v : fstate) (h : nat) :
  (<[length l := v]> (l ++ [x])) !! h = if decide (h = length l) then Some v else l !! h.
Proof.
  destruct (decide (h = length l)) as [->|Hne].
  - apply list_lookup_insert_eq. rewrite length_app. simpl. lia.
  - rewrite list_lookup_insert_ne by done. rewrite lookup_snoc. by rewrite decide_False.
Qed.

Lemma Inv_init (e : URLPlaylistEntry) (files : list (string * node)) :
  Inv (URLLoop.init e files).
Proof.
  split; simpl; try done.
  - apply NoDup_nil_2.
  - intros h Hin. by apply elem_of_nil in Hin.
Qed.

Lemma Inv_request (m : Sys URLPlaylistEntry) :
  Inv m -> Inv (mkSys (snd (get_ready_future (state m))) (running m)).
Proof.
  intros [Hnd Hw Hp Ho Hr Hl]. destruct m as [[e w] r]. simpl in *.
  unfold get_ready_future, new_future. simpl.
  assert (Hfresh : futures w !! length (futures w) = None)
    by (by apply lookup_ge_None_2).
  destruct (is_downloaded (url_base e)) eqn:Hdl.
  - (* resolved on the spot *)
    unfold set_result, settle. simpl.
    rewrite lookup_snoc, decide_True by done. simpl.
    split; simpl; try done.
    + intros h Hin. rewrite lookup_snoc_insert.
      destruct (decide (h = length (futures w))) as [->|Hne]; [|by apply Hw].
      destruct (Hw _ Hin); congruence.
    + intros h. rewrite lookup_snoc_insert.
      destruct (decide (h = length (futures w))); [done|]. apply Hp.
    + intros h. rewrite resolutions_app, Ho, lookup_snoc_insert.
      unfold resolutions. simpl.
      destruct (decide (h = length (futures w))) as [->|Hne].
      * rewrite Hfresh, Nat.eqb_refl. done.
      * rewrite (proj2 (Nat.eqb_neq _ _) Hne). simpl. lia.
  - (* queued behind a download *)
    split; simpl; try done.
    + apply NoDup_app. repeat split; [done| |apply NoDup_singleton].
      intros h Hin ->%list_elem_of_singleton.
      destruct (Hw _ Hin); congruence.
    + intros h. rewrite lookup_snoc. intros [Hin| ->%list_elem_of_singleton]%elem_of_app.
      * destruct (decide (h = length (futures w))) as [->|Hne]; [by left|by apply Hw].
      * rewrite decide_True by done. by left.
    + intros h. rewrite lookup_snoc. rewrite elem_of_app.
      destruct (decide (h = length (futures w))) as [->|Hne].
      * intros _. right. apply list_elem_of_here.
      * intros Hpend. left. by apply Hp.
    + intros h. rewrite Ho, lookup_snoc.
      destruct (decide (h = length (futures w))) as [->|Hne]; [by rewrite Hfresh|done].
    + intros _. left. lia.
Qed.

Lemma Inv_cancel (m : Sys URLPlaylistEntry) (h : nat) :
  Inv m -> Inv (mkSys (in_world (cancel h) (state m)) (running m)).
Proof.
  intros [Hnd Hw Hp Ho Hr Hl]. destruct m as [[e w] r]. simpl in *.
  unfold in_world, cancel. simpl.
  destruct (futures w !! h) as [st|] eqn:Hlk; [|by split].
  destruct (decide (st = Pending)) as [->|Hnp]; [|by destruct st; split].
  assert (Hlt : h < length (futures w)) by (by eapply lookup_lt_Some).
  split; simpl; try done.
  - intros h' Hin. destruct (decide (h' = h)) as [->|Hne].
    + right. by apply list_lookup_insert_eq.
    + rewrite list_lookup_insert_ne by done. by apply Hw.
  - intros h'. destruct (decide (h' = h)) as [->|Hne].
    + by rewrite list_lookup_insert_eq.
    + rewrite list_lookup_insert_ne by done. apply Hp.
  - intros h'. rewrite Ho. destruct (decide (h' = h)) as [->|Hne].
    + rewrite list_lookup_insert_eq by done. by rewrite Hlk.
    + by rewrite list_lookup_insert_ne.
Qed.

Lemma Inv_task_start (m m' : Sys URLPlaylistEntry) :
  Inv m -> URLLoop.step URLLoop.TaskStart m = Some m' -> Inv m'.
Proof.
  intros [Hnd Hw Hp Ho Hr Hl]. destruct m as [[e w] r]. simpl in *.
  destruct (tasks w) as [|n] eqn:Ht; [done|].
  destruct (_is_downloading (url_base e)) eqn:Hd; intros [= <-].
  - split; simpl; try done. rewrite Hd. done.
    intros _. right. lia.
  - split; simpl; try done.
    + by rewrite Hr.
    + intros _. right. lia.
Qed.

Lemma Inv_finish (m m' : Sys URLPlaylistEntry) (c : Collab) :
  Inv m -> URLLoop.step (URLLoop.Finish c) m = Some m' -> Inv m'.
Proof.
  intros [Hnd Hw Hp Ho Hr Hl]. destruct m as [s r]. simpl in *.
  destruct r as [|n]; [done|]. intros [= <-].
  pose proof (download_attempt_spec c s Hnd) as (failure & l & Hspec).
  cbv zeta in Hspec.
  generalize dependent (download_attempt c s). intros s' Hspec. simpl in Hspec.
  destruct Hspec as (Hwait & Hflag & _ & _ & _ & Hsil & Hlog & Hfut).
  split; simpl.
  - rewrite Hwait. apply NoDup_nil_2.
  - rewrite Hwait. intros h Hin. by apply elem_of_nil in Hin.
  - intros h. rewrite Hfut.
    destruct (bool_decide (h ∈ _waiting_futures (url_base (fst s)))) eqn:Hin; simpl.
    + destruct (futures (snd s) !! h) as [[| | |?]|]; simpl; try done.
      by destruct failure.
    + intros Hpend. apply Hp in Hpend.
      by rewrite (bool_decide_eq_true_2 _ Hpend) in Hin.
  - intros h. rewrite Hlog, !resolutions_app, (resolutions_silent _ _ Hsil), Ho.
    rewrite resolutions_pass_trace by done. rewrite Hfut.
    destruct (bool_decide (h ∈ _waiting_futures (url_base (fst s))) &&
              is_pending (futures (snd s) !! h))%bool eqn:Hcase.
    + apply andb_prop in Hcase as [_ Hpend].
      destruct (futures (snd s) !! h) as [[| | |?]|]; try done.
      by destruct failure.
    + lia.
  - rewrite Hflag. destruct (_is_downloading (url_base (fst s))); lia.
  - by rewrite Hwait.
Qed.

Lemma Inv_step (ev : URLLoop.event) (m m' : Sys URLPlaylistEntry) :
  Inv m -> URLLoop.step ev m = Some m' -> Inv m'.
Proof.
  intros Hinv. destruct ev as [|h| |c].
  - intros [= <-]. by apply Inv_request.
  - intros [= <-]. by apply Inv_cancel.
  - by apply Inv_task_start.
  - by apply Inv_finish.
Qed.

Lemma Inv_exec (evs : list URLLoop.event) (m m' : Sys URLPlaylistEntry) :
  Inv m -> URLLoop.exec evs m = Some m' -> Inv m'.
Proof.
  revert m. induction evs as [|ev evs IH]; intros m Hinv; simpl.
  - by intros [= <-].
  - destruct (URLLoop.step ev m) as [m1|] eqn:Hstep; [|done].
    apply IH. by eapply Inv_step.
Qed.

(** A start and a finish with nothing in between are one uninterrupted run of
    [_download]. *)
Lemma task_start_finish_is_download (c : Collab) (s : St) (n r : nat) :
  tasks (snd s) = S n ->
  _is_downloading (base (fst s)) = false ->
  URLLoop.exec [URLLoop.TaskStart; URLLoop.Finish c] (mkSys s r)
  = Some (mkSys (_download c (in_world (set_tasks n) s)) r).
Proof.
  intros Ht Hd. destruct s as [e w]. simpl in *. rewrite Ht. simpl. rewrite Hd.
  unfold _download. simpl. rewrite Hd. unfold download_attempt.
  by destruct e as [[f d wf] u t du ex mt df].
Qed.

(** At most one [_download] of a URL entry is past its guard at any time, and
    exactly then [_is_downloading] is set; a task that starts meanwhile only
    leaves the queue. *)
Lemma URL_one_download_at_a_time (e : URLPlaylistEntry) (files : list (string * node))
    (evs : list URLLoop.event) (m : Sys URLPlaylistEntry) :
  URLLoop.exec evs (URLLoop.init e files) = Some m ->
  running m <= 1
  /\ (running m = 1 <-> _is_downloading (base (fst (state m))) = true)
  /\ (_is_downloading (base (fst (state m))) = true ->
      forall n, tasks (snd (state m)) = S n ->
                URLLoop.step URLLoop.TaskStart m
                = Some (mkSys (in_world (set_tasks n) (state m)) (running m))).
Proof.
  intros Hexec. pose proof (Inv_exec _ _ _ (Inv_init e files) Hexec) as [_ _ _ _ Hr _].
  destruct m as [[e' w] r]. simpl in *.
  destruct (_is_downloading (url_base e')) eqn:Hd; subst r.
  - repeat split; try done; try lia. intros _ n Hn. by rewrite Hn.
  - repeat split; try done; try lia.
Qed.




(** ** The osu entry *)

(** [OsuPlaylistEntry._download] past its guard: one more call in the thread
    pool, [_is_downloading] back to [False] at once, and neither the waiting
    list nor any future touched. *)
Lemma Osu_download_spec (s : OsuPlaylistEntry * World) :
  _is_downloading (base (fst s)) = false ->
  let s' := Osu_download s in
  pool (snd s') = S (pool (snd s))
  /\ _is_downloading (base (fst s')) = false
  /\ _waiting_futures (base (fst s')) = _waiting_futures (base (fst s))
  /\ futures (snd s') = futures (snd s).
Proof.
  intros Hd. unfold Osu_download. rewrite Hd. simpl. done.
Qed.


(** C4, on an osu entry.  Two readiness requests queue two [_download] tasks.
    The first runs while nothing is in flight and hands [_really_download] to
    the pool; the second runs while that call is still in the pool and, the flag
    being [False] again, hands it to the pool a second time: two downloads of
    the one entry are in flight, and both callers are still waiting. *)
Theorem Osu_downloads_overlap :
  exists m1 m2,
    OsuLoop.exec [OsuLoop.Request; OsuLoop.Request; OsuLoop.TaskStart] Runs.osu_start = Some m1
    /\ pool (snd (state m1)) = 1
    /\ _is_downloading (base (fst (state m1))) = false
    /\ OsuLoop.step OsuLoop.TaskStart m1 = Some m2
    /\ pool (snd (state m2)) = 2
    /\ _is_downloading (base (fst (state m2))) = false
    /\ futures (snd (state m2)) = [Pending; Pending]
    /\ _waiting_futures (base (fst (state m2))) = [0; 1].
Proof.
  do 2 eexists. split; [vm_compute; reflexivity|].
  split; [reflexivity|]. split; [reflexivity|].
  split; [vm_compute; reflexivity|]. repeat split.
Qed.

(** The caller of an osu entry is left waiting: after the task and the thread
    are both done, nothing is queued or in flight and the handle is pending. *)
Lemma Osu_waiter_left_pending :
  exists m,
    OsuLoop.exec [OsuLoop.Request; OsuLoop.TaskStart;
                  OsuLoop.ThreadDone (OszUnpacked [Some "audio_cache/123/audio.mp3"])]
      Runs.osu_start = Some m
    /\ futures (snd (state m)) = [Pending]
    /\ _waiting_futures (base (fst (state m))) = [0]
    /\ filename (base (fst (state m))) = Some "audio_cache/123/audio.mp3"
    /\ tasks (snd (state m)) = 0
    /\ pool (snd (state m)) = 0.
Proof.
  eexists. split; [vm_compute; reflexivity|]. repeat split.
Qed.


(** * More of the module *)

(** ** One attempt of [URLPlaylistEntry._download], by what its body did *)

(** The attempt, read off the result of its body. *)
Lemma download_attempt_by_body (c : Collab) (s : St) :
  NoDup (_waiting_futures (base (fst s))) ->
  let waiting := _waiting_futures (base (fst s)) in
  let body := download_body c (assign_is_downloading true s) in
  let failure := match snd body with Ret _ => None | Raise x => Some x end in
  let s' := download_attempt c s in
  _waiting_futures (base (fst s')) = []
  /\ _is_downloading (base (fst s')) = false
  /\ filename (base (fst s')) = filename (base (fst (fst body)))
  /\ fs (snd s') = fs (snd (fst body))
  /\ (forall h, h ∈ waiting -> futures (snd s) !! h = Some Pending ->
                futures (snd s') !! h = Some (outcome_state failure))
  /\ (forall h, h ∉ waiting \/ futures (snd s) !! h <> Some Pending ->
                futures (snd s') !! h = futures (snd s) !! h)
  /\ (forall x, snd body = Raise x -> PrintExc x ∈ log (snd s')).
Proof.
  intros Hnd waiting body failure s'.
  assert (Hpass : forall (failure : option exn) (s2 : St),
             futures (snd s2) = futures (snd s) ->
             _waiting_futures (base (fst s2)) = waiting ->
             let s3 := assign_is_downloading false
                         (_for_each_future (ready_callback failure) s2) in
             _waiting_futures (base (fst s3)) = []
             /\ _is_downloading (base (fst s3)) = false
             /\ filename (base (fst s3)) = filename (base (fst s2))
             /\ fs (snd s3) = fs (snd s2)
             /\ (forall h, h ∈ waiting -> futures (snd s) !! h = Some Pending ->
                           futures (snd s3) !! h = Some (outcome_state failure))
             /\ (forall h, h ∉ waiting \/ futures (snd s) !! h <> Some Pending ->
                           futures (snd s3) !! h = futures (snd s) !! h)
             /\ (forall ev, ev ∈ log (snd s2) -> ev ∈ log (snd s3))).
  { intros fl s2 F W s3.
    assert (Hnd' : NoDup (_waiting_futures (base (fst s2)))) by (by rewrite W).
    destruct (for_each_future_settle fl s2 Hnd') as (H1 & _ & _ & H4 & H5 & _ & H7).
    subst s3. unfold assign_is_downloading. cbn [fst snd].
    rewrite !base_with_base, H1, base_with_base. simpl.
    rewrite W, F in H7.
    repeat split; try done.
    - intros h Hin Hp. rewrite H7, Hp. by rewrite (bool_decide_eq_true_2 _ Hin).
    - intros h [Hnin|Hnp]; rewrite H7.
      + by rewrite (bool_decide_eq_false_2 _ Hnin).
      + destruct (futures (snd s) !! h) as [[| | |?]|]; simpl;
          rewrite ?andb_false_r; done.
    - intros ev Hev. rewrite H5. apply elem_of_app. by left. }
  pose proof (quiet_download_body c (assign_is_downloading true s)) as [F _ _ W _].
  fold body in F, W. simpl in F, W.
  subst s' failure. unfold download_attempt. fold body.
  destruct body as [s2 [u|x]]; cbn [fst snd] in *.
  - destruct (Hpass None s2 F W) as (P1 & P2 & P3 & P4 & P5 & P6 & _).
    repeat split; done.
  - destruct (Hpass (Some x) (fst s2, emit (PrintExc x) (snd s2)) F W)
      as (P1 & P2 & P3 & P4 & P5 & P6 & P7).
    repeat split; try done.
    intros y [= <-]. apply P7. simpl. apply elem_of_app. right. apply list_elem_of_here.
Qed.

(** X3.  Whatever the [try] block of [_download] does, the attempt ends with the
    waiting list empty and [_is_downloading] reset.  The file name and the file
    system are as the body left them.  Every handle that was waiting and
    pending holds the entry if the body returned, and the exception of the body
    if it raised, which is then also printed; every other future is as it
    was. *)
Theorem download_attempt_outcome (c : Collab) (s : St) :
  NoDup (_waiting_futures (base (fst s))) ->
  let waiting := _waiting_futures (base (fst s)) in
  let body := download_body c (assign_is_downloading true s) in
  let failure := match snd body with Ret _ => None | Raise x => Some x end in
  let s' := download_attempt c s in
  _waiting_futures (base (fst s')) = []
  /\ _is_downloading (base (fst s')) = false
  /\ filename (base (fst s')) = filename (base (fst (fst body)))
  /\ fs (snd s') = fs (snd (fst body))
  /\ (forall h, h ∈ waiting -> futures (snd s) !! h = Some Pending ->
                futures (snd s') !! h = Some (outcome_state failure))
  /\ (forall h, h ∉ waiting \/ futures (snd s) !! h <> Some Pending ->
                futures (snd s') !! h = futures (snd s) !! h)
  /\ (forall x, snd body = Raise x -> PrintExc x ∈ log (snd s')).
Proof.
  intros Hnd. by apply download_attempt_by_body.
Qed.

(** The extractor refuses the stable entry of the examples while two callers
    wait, one of them cancelled. *)
Lemma download_attempt_outcome_witness :
  let c := mkCollab (fun _ => None) (fun _ => ExtractRaises (OtherError "DownloadError"))
                    (fun _ _ => "") in
  let s := (with_base (mkBase None false [0; 1]) Examples.stable_entry,
            mkWorld [Pending; Cancelled] 0 0 [("audio_cache", Dir 0)] []) in
  let s' := download_attempt c s in
  _waiting_futures (base (fst s')) = []
  /\ _is_downloading (base (fst s')) = false
  /\ futures (snd s')
     = [HasException (ExtractionError (OtherError "DownloadError")); Cancelled]
  /\ PrintExc (ExtractionError (OtherError "DownloadError")) ∈ log (snd s').
Proof.
  pose proof (download_attempt_outcome
                (mkCollab (fun _ => None) (fun _ => ExtractRaises (OtherError "DownloadError"))
                          (fun _ _ => ""))
                (with_base (mkBase None false [0; 1]) Examples.stable_entry,
                 mkWorld [Pending; Cancelled] 0 0 [("audio_cache", Dir 0)] [])) as Hout.
  assert (Hnd : NoDup [0; 1]) by compute_done.
  destruct (Hout Hnd) as (Hw & Hd & _ & _ & _ & _ & Hprint).
  split; [exact Hw|]. split; [exact Hd|]. split; [reflexivity|].
  apply Hprint. reflexivity.
Defined.

(** ** What [_really_download] does when the extractor fails *)

Lemma really_download_raises (c : Collab) (hash : bool) (e : URLPlaylistEntry) (w : World)
    (x : exn) :
  extract_info c (url e) = ExtractRaises x ->
  _really_download c hash (e, w)
  = ((e, emit (ExtractInfo (url e)) (emit (Print ("[Download] Started: " +:+ url e)) w)),
     Raise (ExtractionError x)).
Proof.
  intros Hx. unfold _really_download, await_extract_info.
  run_body_with ltac:(rewrite Hx). done.
Qed.

Lemma really_download_none (c : Collab) (hash : bool) (e : URLPlaylistEntry) (w : World) :
  extract_info c (url e) = ExtractNone ->
  _really_download c hash (e, w)
  = ((e, emit (Print ("[Download] Complete: " +:+ url e))
           (emit (ExtractInfo (url e)) (emit (Print ("[Download] Started: " +:+ url e)) w))),
     Raise (ExtractionErrorMsg "ytdl broke and hell if I know why")).
Proof.
  intros Hnone. unfold _really_download, await_extract_info.
  run_body_with ltac:(rewrite Hnone). done.
Qed.

(** X4.  An exception of the extractor comes back wrapped in [ExtractionError],
    before the [Complete] line; no result at all comes back as the
    [ExtractionError] with the fixed message, after it.  Either way the entry
    and the file system are untouched. *)
Theorem really_download_extractor_failure (c : Collab) (hash : bool)
    (e : URLPlaylistEntry) (w : World) :
  let started := emit (ExtractInfo (url e)) (emit (Print ("[Download] Started: " +:+ url e)) w) in
  (forall x, extract_info c (url e) = ExtractRaises x ->
             _really_download c hash (e, w) = ((e, started), Raise (ExtractionError x)))
  /\ (extract_info c (url e) = ExtractNone ->
      _really_download c hash (e, w)
      = ((e, emit (Print ("[Download] Complete: " +:+ url e)) started),
         Raise (ExtractionErrorMsg "ytdl broke and hell if I know why"))).
Proof.
  intros started. split.
  - intros x Hx. by apply really_download_raises.
  - intros Hnone. by apply really_download_none.
Qed.

(** ** Entries [_download] cannot serve *)

(** Without an expected file name the body raises [TypeError] before it looks
    at the cache or asks the extractor, and leaves the entry as it was. *)
Lemma download_without_expected_filename (c : Collab) (e : URLPlaylistEntry) (w : World) :
  expected_filename e = None ->
  snd (download_body c (e, w)) = Raise TypeError
  /\ fst (fst (download_body c (e, w))) = e.
Proof.
  intros Hnone. unfold download_body, os_makedirs.
  run_body_with ltac:(rewrite Hnone).
  destruct (Fs.lookup (download_folder e) (fs w)) eqn:Hl;
    run_body_with ltac:(rewrite Hnone || rewrite Hl || rewrite fs_emit); done.
Qed.

Lemma from_json_init (playlist : Playlist) (data : persisted) (e : URLPlaylistEntry) :
  from_json playlist data = Ret e ->
  exists m, e = URLPlaylistEntry_init playlist (p_url data) (p_title data) (p_duration data)
                  (if p_downloaded data then p_filename data else None) m.
Proof.
  unfold from_json.
  destruct (dict_get "author" (p_meta data)) as [a|].
  - destruct (dict_get "channel" _) as [[cls id name|?|]|]; try done.
    intros [= <-]. by eexists.
  - intros [= <-]. by eexists.
Qed.

(** X5.  What [from_json] builds, whenever it builds something: an entry that is
    idle, with no file name, no waiter and no download running, whose expected
    file name is the persisted file name if the record says [downloaded] and
    [None] otherwise. *)
Theorem from_json_starts_idle (playlist : Playlist) (data : persisted) (e : URLPlaylistEntry) :
  from_json playlist data = Ret e ->
  base e = base_init
  /\ is_downloaded (base e) = false
  /\ expected_filename e = (if p_downloaded data then p_filename data else None)
  /\ url e = p_url data
  /\ title e = p_title data
  /\ duration e = p_duration data
  /\ download_folder e = downloader_download_folder playlist.
Proof.
  intros [m ->]%from_json_init. repeat split.
Qed.

Lemma from_json_starts_idle_witness :
  let data := mkPersisted 1 "URLPlaylistEntry" "http://host/v" "song" 0 true
                (Some "audio_cache/youtube-abc-song.mp3") [] in
  let e := URLPlaylistEntry_init Examples.playlist "http://host/v" "song" 0
             (Some "audio_cache/youtube-abc-song.mp3") [] in
  base e = base_init
  /\ is_downloaded (base e) = false
  /\ expected_filename e = Some "audio_cache/youtube-abc-song.mp3"
  /\ url e = "http://host/v"
  /\ title e = "song"
  /\ duration e = 0%Z
  /\ download_folder e = "audio_cache".
Proof.
  apply (from_json_starts_idle Examples.playlist
           (mkPersisted 1 "URLPlaylistEntry" "http://host/v" "song" 0 true
              (Some "audio_cache/youtube-abc-song.mp3") [])).
  reflexivity.
Defined.

(** ** What a download never touches *)

Lemma keeps_fields_ret {A : Type} (a : A) : keeps_fields (ret a).
Proof. intros s. exists (base (fst s)). symmetry. apply with_base_base. Qed.

Lemma keeps_fields_raise {A : Type} (x : exn) : keeps_fields (@raise A x).
Proof. intros s. exists (base (fst s)). symmetry. apply with_base_base. Qed.

Lemma keeps_fields_bind {A B : Type} (m : M A) (k : A -> M B) :
  keeps_fields m -> (forall a, keeps_fields (k a)) -> keeps_fields (bind m k).
Proof.
  intros Hm Hk s. unfold bind. destruct (Hm s) as [b Hb].
  destruct (m s) as [s' [a|x]]; cbn [fst snd] in *; [|by exists b].
  destruct (Hk a s') as [b' Hb']. exists b'. by rewrite Hb', Hb, with_base_twice.
Qed.

Lemma keeps_fields_self : keeps_fields self.
Proof. intros s. exists (base (fst s)). symmetry. apply with_base_base. Qed.

Lemma keeps_fields_get_fs : keeps_fields get_fs.
Proof. intros s. exists (base (fst s)). symmetry. apply with_base_base. Qed.

Lemma keeps_fields_modify_world (f : World -> World) : keeps_fields (modify_world f).
Proof. intros s. exists (base (fst s)). symmetry. apply with_base_base. Qed.

Lemma keeps_fields_assign_filename (f : string) : keeps_fields (assign_filename f).
Proof. intros s. by eexists. Qed.

Ltac keeps_fields_step :=
  first
    [ apply keeps_fields_ret | apply keeps_fields_raise | apply keeps_fields_self
    | apply keeps_fields_get_fs | apply keeps_fields_modify_world
    | apply keeps_fields_assign_filename
    | apply keeps_fields_bind; [|intros ?]
    | match goal with
      | |- keeps_fields (match ?x with _ => _ end) => destruct x
      | |- keeps_fields (if ?b then _ else _) => destruct b
      end ].

Lemma keeps_fields_really_download (c : Collab) (hash : bool) :
  keeps_fields (_really_download c hash).
Proof.
  unfold _really_download, await_extract_info, md5sum, os_path_isfile, os_unlink,
    os_rename, print, perform.
  repeat keeps_fields_step.
Qed.

Lemma keeps_fields_download_body (c : Collab) : keeps_fields (download_body c).
Proof.
  unfold download_body, download_generic, download_stable, os_path_exists, os_makedirs,
    os_listdir, os_path_getsize, expected_basename, await_rsize, py_index, py_getitem,
    print, perform.
  repeat keeps_fields_step; apply keeps_fields_really_download.
Qed.

(** The two callbacks of [_download] leave the entry to the loop. *)
Lemma for_each_loop_on_future_fst {E : Type} (f : nat -> World -> World * res unit)
    (l : list nat) (s : E * World) :
  fst (for_each_loop (on_future f) l s) = fst s.
Proof.
  revert s. induction l as [|h l IH]; intros s; [done|]. simpl.
  destruct (cancelled h (snd s)); [apply IH|].
  unfold on_future. destruct (f h (snd s)) as [w [u|x]]; by rewrite IH.
Qed.

Lemma download_with_base (c : Collab) (s : St) :
  exists b, fst (_download c s) = with_base b (fst s).
Proof.
  unfold _download.
  destruct (_is_downloading (base (fst s))).
  { exists (base (fst s)). symmetry. apply with_base_base. }
  unfold download_attempt.
  destruct (keeps_fields_download_body c (assign_is_downloading true s)) as [b Hb].
  destruct (download_body c (assign_is_downloading true s)) as [s2 [u|x]];
    unfold _for_each_future, cb_set_result, cb_set_exception, assign_is_downloading in *;
    cbn [fst snd] in *;
    rewrite for_each_loop_on_future_fst; cbn [fst snd];
    rewrite Hb, !base_with_base, !with_base_twice; by eexists.
Qed.

(** X6.  [_download] changes nothing of a URL entry but its file name, its flag
    and its waiting list: the url, the title, the duration, the expected file
    name, the [meta] and the download folder are what they were, whatever the
    collaborators do. *)
Theorem download_keeps_fields (c : Collab) (s : St) :
  let e := fst s in
  let e' := fst (_download c s) in
  url e' = url e
  /\ title e' = title e
  /\ duration e' = duration e
  /\ expected_filename e' = expected_filename e
  /\ meta e' = meta e
  /\ download_folder e' = download_folder e.
Proof.
  intros e e'. subst e e'.
  by destruct (download_with_base c s) as [b ->].
Qed.

(** X7.  An entry restored from a record that says [downloaded = False] has no
    expected file name.  Its first caller is queued, and the download that
    serves it fails with [TypeError]: the caller's future holds that exception,
    the entry is still not downloaded and still has no expected file name, so
    every later attempt ends the same way. *)
Theorem restored_undownloaded_entry_cannot_download (playlist : Playlist) (data : persisted)
    (e : URLPlaylistEntry) (c : Collab) (w : World) :
  from_json playlist data = Ret e ->
  p_downloaded data = false ->
  let asked := snd (get_ready_future (e, w)) in
  let s' := _download c asked in
  futures (snd s') !! length (futures w) = Some (HasException TypeError)
  /\ is_downloaded (base (fst s')) = false
  /\ expected_filename (fst s') = None.
Proof.
  intros Hfrom Hnot asked s'.
  destruct (from_json_init _ _ _ Hfrom) as [m He].
  assert (Hbase : base e = base_init) by (by rewrite He).
  assert (Hidle : is_downloaded (base e) = false) by (by rewrite He).
  assert (Hexp : expected_filename e = None) by (by rewrite He, Hnot).
  assert (Hasked : asked = (with_base (mkBase None false [length (futures w)]) e,
                            set_tasks (S (tasks w)) (set_futures (futures w ++ [Pending]) w))).
  { subst asked. unfold get_ready_future, new_future. cbn [fst snd].
    rewrite Hidle, Hbase. reflexivity. }
  assert (Hexp' : expected_filename (fst asked) = None) by (by rewrite Hasked).
  assert (Hwait : _waiting_futures (base (fst asked)) = [length (futures w)])
    by (by rewrite Hasked).
  assert (Hflag : _is_downloading (base (fst asked)) = false) by (by rewrite Hasked).
  assert (Hname : filename (base (fst asked)) = None) by (by rewrite Hasked).
  assert (Hfut : futures (snd asked) !! length (futures w) = Some Pending).
  { rewrite Hasked. simpl. rewrite lookup_app_r by lia. by rewrite Nat.sub_diag. }
  clearbody asked.
  split; [|split].
  - subst s'. unfold _download. rewrite Hflag.
    assert (Hnd : NoDup (_waiting_futures (base (fst asked))))
      by (rewrite Hwait; apply NoDup_singleton).
    destruct (download_attempt_by_body c asked Hnd) as (_ & _ & _ & _ & Hp & _).
    rewrite (Hp (length (futures w))); [|rewrite Hwait; apply list_elem_of_here|done].
    destruct (assign_is_downloading true asked) as [e1 w1] eqn:Hstart.
    assert (He1 : expected_filename e1 = None).
    { apply (f_equal fst) in Hstart. simpl in Hstart. by subst e1. }
    by rewrite (proj1 (download_without_expected_filename c e1 w1 He1)).
  - subst s'. unfold _download. rewrite Hflag.
    assert (Hnd : NoDup (_waiting_futures (base (fst asked))))
      by (rewrite Hwait; apply NoDup_singleton).
    destruct (download_attempt_by_body c asked Hnd) as (_ & Hd & Hn & _).
    unfold is_downloaded. rewrite Hd, Hn.
    destruct (assign_is_downloading true asked) as [e1 w1] eqn:Hstart.
    assert (He1 : e1 = with_base (set_is_downloading true (base (fst asked))) (fst asked)).
    { apply (f_equal fst) in Hstart. by simpl in Hstart. }
    assert (Hexp1 : expected_filename e1 = None) by (by rewrite He1).
    rewrite (proj2 (download_without_expected_filename c e1 w1 Hexp1)).
    rewrite He1, base_with_base.
    change (filename (set_is_downloading true (base (fst asked))))
      with (filename (base (fst asked))).
    by rewrite Hname.
  - subst s'.
    destruct (download_with_base c asked) as [b ->]. exact Hexp'.
Qed.

Lemma restored_undownloaded_entry_cannot_download_witness :
  let data := mkPersisted 1 "URLPlaylistEntry" "http://host/v" "song" 0 false None [] in
  let e := URLPlaylistEntry_init Examples.playlist "http://host/v" "song" 0 None [] in
  let asked := snd (get_ready_future (e, Examples.world [])) in
  let s' := _download (Examples.collab None) asked in
  futures (snd s') !! 0 = Some (HasException TypeError)
  /\ is_downloaded (base (fst s')) = false
  /\ expected_filename (fst s') = None.
Proof.
  apply (restored_undownloaded_entry_cannot_download Examples.playlist
           (mkPersisted 1 "URLPlaylistEntry" "http://host/v" "song" 0 false None [])
           (URLPlaylistEntry_init Examples.playlist "http://host/v" "song" 0 None [])
           (Examples.collab None) (Examples.world [])); reflexivity.
Defined.

(** ** Splitting at the last separator *)

Lemma rpartition_spec (c : ascii) (s b t : string) :
  PyStr.rpartition c s = Some (b, t) ->
  s = b +:+ String c t /\ PyText.contains c t = false.
Proof.
  revert b t. induction s as [|a s IH]; intros b t; simpl; [done|].
  destruct (PyStr.rpartition c s) as [[b' t']|] eqn:Hr.
  - intros [= <- <-]. destruct (IH b' t' eq_refl) as [-> Ht]. done.
  - destruct (Ascii.eqb_spec a c) as [->|Hne]; [|done].
    intros [= <- <-]. split; [done|].
    clear IH. revert Hr. induction s as [|a' s IH]; simpl; [done|].
    destruct (PyStr.rpartition c s) as [[? ?]|]; [done|].
    destruct (Ascii.eqb a' c); [done|]. intros _. by apply IH.
Qed.

Lemma rpartition_none (c : ascii) (s : string) :
  PyStr.rpartition c s = None <-> PyText.contains c s = false.
Proof.
  induction s as [|a s IH]; simpl; [done|].
  destruct (PyStr.rpartition c s) as [[b t]|].
  - split; [done|]. intros [_ Hs]%orb_false_elim. by apply IH in Hs.
  - destruct (Ascii.eqb a c); simpl; [done|]. split; [intros _; by apply IH|done].
Qed.

(** Text without the separator, put behind a string, stays behind its last
    separator. *)
Lemma rpartition_app (c : ascii) (s u : string) :
  PyText.contains c u = false ->
  PyStr.rpartition c (s +:+ u)
  = match PyStr.rpartition c s with
    | Some (b, t) => Some (b, t +:+ u)
    | None => None
    end.
Proof.
  intros Hu. induction s as [|a s IH].
  - simpl. by apply rpartition_none.
  - change (String a s +:+ u) with (String a (s +:+ u)). simpl. rewrite IH.
    destruct (PyStr.rpartition c s) as [[b t]|]; [done|].
    by destruct (Ascii.eqb a c).
Qed.

Lemma rpartition_at (c : ascii) (s t : string) :
  PyText.contains c t = false ->
  PyStr.rpartition c (s +:+ String c t) = Some (s, t).
Proof.
  intros Ht. induction s as [|a s IH].
  - simpl. rewrite (proj2 (rpartition_none c t) Ht). by rewrite Ascii.eqb_refl.
  - change (String a s +:+ String c t) with (String a (s +:+ String c t)).
    simpl. by rewrite IH.
Qed.

Lemma contains_app (c : ascii) (s t : string) :
  PyText.contains c (s +:+ t) = (PyText.contains c s || PyText.contains c t)%bool.
Proof.
  induction s as [|a s IH]; [done|].
  change (String a s +:+ t) with (String a (s +:+ t)). simpl. rewrite IH.
  by rewrite orb_assoc.
Qed.

(** ** The name of a hashed download *)

(** X8.  The name [_really_download] builds for a file name with an extension is
    the name with a dash and the checksum put before the last dot.  When
    neither the checksum nor the extension has a dash or a separator in it, the
    extension is kept, and the stem under which the lookup of the [generic]
    branch files a listed name (the text before its last dash) is, for this
    name, the stem it computes for the unhashed name (the text before its last
    dot): a hashed file is a candidate for the name it was downloaded for. *)
Theorem hashed_name_keeps_stem (sum unhashed stem ext : string) :
  PyStr.rpartition "." unhashed = Some (stem, ext) ->
  PyText.contains "-" sum = false ->
  PyText.contains "-" ext = false ->
  PyText.contains "/" sum = false ->
  PyText.contains "/" ext = false ->
  let hashed := PyStr.join (PyStr.join sum (PyStr.chars "-.")) (PyStr.rsplit "." unhashed) in
  hashed = stem +:+ "-" +:+ sum +:+ "." +:+ ext
  /\ PyStr.rsplit_last "." (OsPath.basename hashed) = ext
  /\ PyStr.rsplit_head "-" (OsPath.basename hashed)
     = PyStr.rsplit_head "." (OsPath.basename unhashed).
Proof.
  intros Hsplit Hds Hde Hss Hse hashed.
  destruct (rpartition_spec _ _ _ _ Hsplit) as [Hu Hdot].
  assert (Hhashed : hashed = stem +:+ "-" +:+ sum +:+ "." +:+ ext).
  { subst hashed. unfold PyStr.rsplit. rewrite Hsplit. simpl.
    change (String "-" (sum +:+ ".")) with ("-" +:+ sum +:+ ".").
    by rewrite !string_app_assoc. }
  split; [done|].
  assert (Hbase : forall tail, PyText.contains "/" tail = false ->
                               OsPath.basename (stem +:+ tail) = OsPath.basename stem +:+ tail).
  { intros tail Ht. unfold OsPath.basename, PyStr.rsplit_last, OsPath.sep.
    rewrite rpartition_app by done.
    by destruct (PyStr.rpartition "/" stem) as [[? ?]|]. }
  assert (Htail : PyText.contains "/" ("-" +:+ sum +:+ "." +:+ ext) = false).
  { change ("-" +:+ sum +:+ "." +:+ ext) with (String "-" (sum +:+ String "." ext)).
    simpl. rewrite contains_app. simpl. by rewrite Hss, Hse. }
  assert (Htail' : PyText.contains "/" (String "." ext) = false) by (simpl; by rewrite Hse).
  rewrite Hhashed, (Hbase _ Htail). rewrite Hu, (Hbase _ Htail').
  split.
  - unfold PyStr.rsplit_last.
    change (OsPath.basename stem +:+ "-" +:+ sum +:+ "." +:+ ext)
      with (OsPath.basename stem +:+ (String "-" sum +:+ String "." ext)).
    rewrite <- (string_app_assoc (OsPath.basename stem) (String "-" sum) (String "." ext)).
    by rewrite rpartition_at.
  - unfold PyStr.rsplit_head.
    change (OsPath.basename stem +:+ "-" +:+ sum +:+ "." +:+ ext)
      with (OsPath.basename stem +:+ String "-" (sum +:+ String "." ext)).
    rewrite rpartition_at.
    + by rewrite rpartition_at.
    + rewrite contains_app. simpl. by rewrite Hds, Hde.
Qed.

Lemma hashed_name_keeps_stem_witness :
  let hashed := PyStr.join (PyStr.join "deadbeef" (PyStr.chars "-."))
                  (PyStr.rsplit "." "audio_cache/generic-song.mp3") in
  hashed = "audio_cache/generic-song" +:+ "-" +:+ "deadbeef" +:+ "." +:+ "mp3"
  /\ PyStr.rsplit_last "." (OsPath.basename hashed) = "mp3"
  /\ PyStr.rsplit_head "-" (OsPath.basename hashed)
     = PyStr.rsplit_head "." (OsPath.basename "audio_cache/generic-song.mp3").
Proof.
  apply (hashed_name_keeps_stem "deadbeef" "audio_cache/generic-song.mp3"
           "audio_cache/generic-song" "mp3"); reflexivity.
Defined.

(** ** The [generic] branch without a candidate *)

(** X9.  For an expected name with the [generic] prefix and the download folder in
    place: a base name without a dot cannot be unpacked into name and extension,
    and the attempt ends in [ValueError] with nothing done; with a dot and no
    listed name of the expected stem, [_download] goes straight to
    [_really_download] with hashing, without probing the remote size. *)
Theorem generic_without_candidate (c : Collab) (e : URLPlaylistEntry) (w : World)
    (p : string) (n : nat) :
  expected_filename e = Some p ->
  Fs.lookup (download_folder e) (fs w) = Some (Dir n) ->
  PyStr.split_head "-" (OsPath.basename p) = "generic" ->
  (PyText.contains "." (OsPath.basename p) = false ->
     download_body c (e, w) = ((e, w), Raise ValueError))
  /\ (forall expected_fname_noex fname_ex,
         PyStr.rsplit "." (OsPath.basename p) = [expected_fname_noex; fname_ex] ->
         expected_fname_noex
           ∉ PyStr.rsplit_head "-" <$> Fs.children (download_folder e) (fs w) ->
         download_body c (e, w) = _really_download c true (e, w)).
Proof.
  intros Hexp Hfolder Hgen.
  rewrite (download_body_dispatch c e w p n Hexp Hfolder), Hgen.
  simpl String.eqb. cbv iota. split.
  - intros Hdot. apply rpartition_none in Hdot.
    unfold download_generic.
    run_body_with ltac:(rewrite Hfolder || rewrite Hexp).
    unfold PyStr.rsplit. by rewrite Hdot.
  - intros noex ext Hsplit Hnin.
    by apply (download_generic_miss c e w p n Hexp Hfolder noex ext).
Qed.

Lemma generic_without_candidate_witness :
  download_body (Examples.collab None) (Examples.generic_entry, Examples.world Examples.drifted)
  = _really_download (Examples.collab None) true
      (Examples.generic_entry, Examples.world Examples.drifted).
Proof.
  destruct (generic_without_candidate (Examples.collab None) Examples.generic_entry
              (Examples.world Examples.drifted) "audio_cache/generic-song.mp3" 0
              eq_refl eq_refl eq_refl) as [_ Hmiss].
  apply (Hmiss "generic-song" "mp3"); [reflexivity|compute_done].
Defined.

(** ** A download folder that is not there yet *)

Lemma lookup_write_eq (p : string) (n : node) (f : Fs.t) :
  Fs.lookup p (Fs.write p n f) = Some n.
Proof.
  induction f as [|[q m] f IH]; simpl.
  - by rewrite String.eqb_refl.
  - destruct (String.eqb q p) eqn:Hq; simpl; by rewrite Hq.
Qed.

Lemma write_new (p : string) (n : node) (f : Fs.t) :
  Fs.lookup p f = None -> Fs.write p n f = f ++ [(p, n)].
Proof.
  induction f as [|[q m] f IH]; simpl; [done|].
  destruct (String.eqb q p); [done|]. intros Hl. by rewrite IH.
Qed.

Lemma strip_prefix_longer (d : string) (a : ascii) (x : string) :
  Fs.strip_prefix (d +:+ String a x) d = None.
Proof.
  induction d as [|b d IH]; [done|].
  change (String b d +:+ String a x) with (String b (d +:+ String a x)).
  simpl. by rewrite Ascii.eqb_refl.
Qed.

Lemma strip_prefix_self (d : string) : Fs.strip_prefix d d = Some "".
Proof.
  induction d as [|b d IH]; [done|]. simpl. by rewrite Ascii.eqb_refl.
Qed.

(** A folder is not listed in itself. *)
Lemma child_name_self (d : string) : Fs.child_name d d = None.
Proof.
  unfold Fs.child_name, Fs.dir_prefix.
  destruct (String.eqb d "" || PyStr.endswith_char OsPath.sep d)%bool.
  - by rewrite strip_prefix_self.
  - by rewrite strip_prefix_longer.
Qed.

Lemma children_makedirs (d : string) (n : node) (f : Fs.t) :
  Fs.lookup d f = None -> Fs.children d (Fs.write d n f) = Fs.children d f.
Proof.
  intros Hl. rewrite (write_new _ _ _ Hl). unfold Fs.children.
  rewrite omap_app. simpl. rewrite child_name_self. by rewrite app_nil_r.
Qed.

(** X10.  When nothing exists at the path of the download folder (and so nothing
    inside it), [_download] creates the folder and, finding it empty, goes to
    [_really_download]: with hashing for a [generic] name that has an
    extension, without hashing for any other extractor prefix. *)
Theorem download_creates_folder (c : Collab) (e : URLPlaylistEntry) (w : World) (p : string) :
  expected_filename e = Some p ->
  Fs.lookup (download_folder e) (fs w) = None ->
  Fs.children (download_folder e) (fs w) = [] ->
  let created := set_fs (Fs.write (download_folder e) (Dir 0) (fs w))
                   (emit (MakeDirs (download_folder e)) w) in
  Fs.isdir (download_folder e) (fs created) = true
  /\ (PyStr.split_head "-" (OsPath.basename p) <> "generic" ->
      download_body c (e, w) = _really_download c false (e, created))
  /\ (PyStr.split_head "-" (OsPath.basename p) = "generic" ->
      PyText.contains "." (OsPath.basename p) = true ->
      download_body c (e, w) = _really_download c true (e, created)).
Proof.
  intros Hexp Hnone Hempty created.
  assert (Hdir : Fs.lookup (download_folder e) (fs created) = Some (Dir 0))
    by apply lookup_write_eq.
  assert (Hls : Fs.children (download_folder e) (fs created) = [])
    by (subst created; simpl; by rewrite children_makedirs).
  assert (Hbody : download_body c (e, w)
                  = if String.eqb (PyStr.split_head "-" (OsPath.basename p)) "generic"
                    then download_generic c (e, created) else download_stable c (e, created)).
  { unfold download_body, os_makedirs.
    run_body_with ltac:(rewrite Hnone || rewrite Hexp || rewrite fs_emit).
    fold created. by destruct (String.eqb _ _). }
  split; [unfold Fs.isdir; by rewrite Hdir|]. rewrite Hbody. split.
  - intros Hstable. apply String.eqb_neq in Hstable. rewrite Hstable.
    apply (download_stable_miss c e created p 0 Hexp Hdir); rewrite Hls.
    + apply not_elem_of_nil.
    + apply not_elem_of_nil.
  - intros Hgen Hdot. rewrite Hgen. simpl String.eqb. cbv iota.
    destruct (PyStr.rpartition "." (OsPath.basename p)) as [[noex ext]|] eqn:Hr.
    + apply (download_generic_miss c e created p 0 Hexp Hdir noex ext).
      * unfold PyStr.rsplit. by rewrite Hr.
      * rewrite Hls. apply not_elem_of_nil.
    + apply rpartition_none in Hr. congruence.
Qed.

Lemma download_creates_folder_witness :
  let w := mkWorld [] 0 0 [] [] in
  let created := set_fs (Fs.write "audio_cache" (Dir 0) (fs w))
                   (emit (MakeDirs "audio_cache") w) in
  Fs.isdir "audio_cache" (fs created) = true
  /\ (PyStr.split_head "-" (OsPath.basename "audio_cache/youtube-abc-song.mp3") <> "generic" ->
      download_body (Examples.collab None) (Examples.stable_entry, w)
      = _really_download (Examples.collab None) false (Examples.stable_entry, created))
  /\ (PyStr.split_head "-" (OsPath.basename "audio_cache/youtube-abc-song.mp3") = "generic" ->
      PyText.contains "." (OsPath.basename "audio_cache/youtube-abc-song.mp3") = true ->
      download_body (Examples.collab None) (Examples.stable_entry, w)
      = _really_download (Examples.collab None) true (Examples.stable_entry, created)).
Proof.
  apply (download_creates_folder (Examples.collab None) Examples.stable_entry
           (mkWorld [] 0 0 [] []) "audio_cache/youtube-abc-song.mp3"); reflexivity.
Defined.

(** ** What a download without hashing leaves behind *)

Lemma really_download_plain (c : Collab) (e : URLPlaylistEntry) (w : World)
    (result : ytdl_result) :
  extract_info c (url e) = ExtractOk result ->
  _really_download c false (e, w)
  = ((with_filename (prepare_filename result) e,
      emit (Print ("[Download] Complete: " +:+ url e))
        (set_fs (Fs.write (prepare_filename result) (File (payload result)) (fs w))
           (emit (ExtractInfo (url e))
              (emit (Print ("[Download] Started: " +:+ url e)) w)))), Ret tt).
Proof.
  intros Hextract. unfold _really_download, await_extract_info.
  run_body_with ltac:(rewrite Hextract || rewrite fs_emit). done.
Qed.

(** X11.  For any extractor prefix but [generic], with the download folder in
    place: when the body of [_download] returns, [filename] is set and names a
    node of the file system, be it a cached file or the one just transferred;
    when it raises, the entry is exactly as it was. *)
Theorem stable_download_outcome (c : Collab) (e : URLPlaylistEntry) (w : World)
    (p : string) (n : nat) :
  expected_filename e = Some p ->
  Fs.lookup (download_folder e) (fs w) = Some (Dir n) ->
  PyStr.split_head "-" (OsPath.basename p) <> "generic" ->
  let out := download_body c (e, w) in
  match snd out with
  | Ret _ => exists f, filename (base (fst (fst out))) = Some f
                       /\ Fs.exists_ f (fs (snd (fst out))) = true
  | Raise _ => fst (fst out) = e
  end.
Proof.
  intros Hexp Hfolder Hstable out.
  pose proof (download_body_dispatch c e w p n Hexp Hfolder) as Hbody.
  rewrite (proj2 (String.eqb_neq _ _) Hstable) in Hbody.
  assert (Hlisted : forall name, name ∈ Fs.children (download_folder e) (fs w) ->
                                 Fs.exists_ (OsPath.join (download_folder e) name) (fs w) = true).
  { intros name Hin. destruct (children_lookup _ _ _ Hin) as [nd Hnd].
    unfold Fs.exists_. by rewrite Hnd. }
  subst out.
  destruct (decide (OsPath.basename p ∈ Fs.children (download_folder e) (fs w))) as [Hin|Hnin].
  { rewrite Hbody, (download_stable_exact c e w p n Hexp Hfolder Hin). simpl.
    eexists. split; [done|]. by apply Hlisted. }
  destruct (decide (PyStr.rsplit_head "." (OsPath.basename p)
                      ∈ PyStr.rsplit_head "." <$> Fs.children (download_folder e) (fs w)))
    as [Hin'|Hnin'].
  { destruct (download_stable_stem c e w p n Hexp Hfolder Hnin Hin')
      as (i & name & Hi & _ & _ & Hrun).
    rewrite Hbody, Hrun. simpl. eexists. split; [done|].
    apply Hlisted. apply list_elem_of_lookup. by exists i. }
  rewrite Hbody, (download_stable_miss c e w p n Hexp Hfolder Hnin Hnin').
  destruct (extract_info c (url e)) as [x| |result] eqn:Hextract.
  - by rewrite (really_download_raises c false e w x).
  - by rewrite (really_download_none c false e w).
  - rewrite (really_download_plain c e w result Hextract). simpl.
    eexists. split; [done|]. unfold Fs.exists_. by rewrite lookup_write_eq.
Qed.

Lemma stable_download_outcome_witness :
  let out := download_body (Examples.collab None)
               (Examples.stable_entry, Examples.world Examples.drifted) in
  match snd out with
  | Ret _ => exists f, filename (base (fst (fst out))) = Some f
                       /\ Fs.exists_ f (fs (snd (fst out))) = true
  | Raise _ => fst (fst out) = Examples.stable_entry
  end.
Proof.
  apply (stable_download_outcome (Examples.collab None) Examples.stable_entry
           (Examples.world Examples.drifted) "audio_cache/youtube-abc-song.mp3" 0);
    [reflexivity | reflexivity | discriminate].
Defined.

(** ** A hashed name that is taken *)

Lemma lookup_remove_eq (p : string) (f : Fs.t) : Fs.lookup p (Fs.remove p f) = None.
Proof.
  induction f as [|[q m] f IH]; simpl; [done|].
  destruct (String.eqb q p) eqn:Hq; simpl; [done|]. by rewrite Hq.
Qed.

Lemma lookup_remove_ne (p q : string) (f : Fs.t) :
  p <> q -> Fs.lookup q (Fs.remove p f) = Fs.lookup q f.
Proof.
  intros Hne. induction f as [|[r m] f IH]; simpl; [done|].
  destruct (String.eqb_spec r p) as [->|Hrp]; simpl.
  - by rewrite (proj2 (String.eqb_neq p q) Hne).
  - by rewrite IH.
Qed.

(** X12.  When the transfer succeeds and a file of the hashed name is already
    there, [_really_download] with hashing points [filename] at that file,
    unlinks the file just transferred, and then raises [FileNotFoundError] from
    the rename of the unlinked file.  The attempt counts as failed although the
    entry now has a file name whose file exists. *)
Theorem really_download_hash_taken (c : Collab) (e : URLPlaylistEntry) (w : World)
    (result : ytdl_result) :
  extract_info c (url e) = ExtractOk result ->
  let unhashed_fname := prepare_filename result in
  let hashed := PyStr.join (PyStr.join (md5 c (payload result) 8) (PyStr.chars "-."))
                  (PyStr.rsplit "." unhashed_fname) in
  let files := Fs.write unhashed_fname (File (payload result)) (fs w) in
  Fs.lookup unhashed_fname files = Some (File (payload result)) ->
  hashed <> unhashed_fname ->
  Fs.isfile hashed files = true ->
  let out := _really_download c true (e, w) in
  snd out = Raise (FileNotFoundError unhashed_fname)
  /\ fst (fst out) = with_filename hashed e
  /\ Fs.isfile hashed (fs (snd (fst out))) = true
  /\ Fs.exists_ unhashed_fname (fs (snd (fst out))) = false.
Proof.
  intros Hextract unhashed_fname hashed files Hwritten Hne Htaken out.
  assert (Hout : out = ((with_filename hashed e,
                         emit (Rename unhashed_fname hashed)
                           (set_fs (Fs.remove unhashed_fname files)
                              (emit (Unlink unhashed_fname)
                                 (emit (Print ("[Download] Complete: " +:+ url e))
                                    (set_fs files
                                       (emit (ExtractInfo (url e))
                                          (emit (Print ("[Download] Started: " +:+ url e))
                                             w))))))),
                        Raise (FileNotFoundError unhashed_fname))).
  { subst out unhashed_fname hashed files.
    unfold _really_download, await_extract_info, md5sum, os_path_isfile, os_unlink, os_rename.
    run_body_with ltac:(rewrite Hextract || rewrite fs_emit || rewrite fs_set_fs
                        || rewrite Hwritten || rewrite Htaken
                        || rewrite lookup_remove_eq).
    unfold with_filename. by rewrite base_with_base, with_base_twice. }
  rewrite Hout. simpl. repeat split.
  - unfold Fs.isfile in *. rewrite lookup_remove_ne by done. exact Htaken.
  - unfold Fs.exists_. by rewrite lookup_remove_eq.
Qed.

Lemma really_download_hash_taken_witness :
  let out := _really_download (Examples.collab None) true
               (Examples.generic_entry, Examples.world Examples.hashed) in
  snd out = Raise (FileNotFoundError "audio_cache/generic-song.mp3")
  /\ fst (fst out) = with_filename "audio_cache/generic-song-deadbeef.mp3" Examples.generic_entry
  /\ Fs.isfile "audio_cache/generic-song-deadbeef.mp3" (fs (snd (fst out))) = true
  /\ Fs.exists_ "audio_cache/generic-song.mp3" (fs (snd (fst out))) = false.
Proof.
  apply (really_download_hash_taken (Examples.collab None) Examples.generic_entry
           (Examples.world Examples.hashed)
           (mkResult "audio_cache/generic-song.mp3" "hello"));
    [reflexivity | reflexivity | discriminate | reflexivity].
Defined.

(** ** When persisting fails *)

Lemma meta_items_raise (m : list (string * pyobj)) :
  match meta_items m with
  | Ret pm => forall i v, (i, v) ∈ m -> persist v <> None
  | Raise x => x = AttributeError /\ exists i v, (i, v) ∈ m /\ persist v = None
  end.
Proof.
  induction m as [|[i v] m IH]; simpl.
  - intros i v Hin. by apply elem_of_nil in Hin.
  - destruct v as [cls id name|s|]; simpl.
    + destruct (meta_items m) as [pm|x].
      * intros j u [[= -> ->]|Hin]%elem_of_cons; [done|by apply (IH j u)].
      * destruct IH as [-> (j & u & Hin & Hu)]. split; [done|].
        exists j, u. split; [by apply list_elem_of_further|done].
    + split; [done|]. exists i, (Str s). split; [apply list_elem_of_here|done].
    + split; [done|]. exists i, PyNone. split; [apply list_elem_of_here|done].
Qed.

(** X13.  [to_json] raises exactly when some value of [meta] is not an object with
    [.id] and [.name] (a plain string, or [None]), and what it raises then is
    [AttributeError]; otherwise it returns the record. *)
Theorem to_json_raises_iff (e : URLPlaylistEntry) :
  (to_json e = Raise AttributeError
   <-> exists i v, (i, v) ∈ meta e /\ persist v = None)
  /\ ((exists data, to_json e = Ret data)
      <-> forall i v, (i, v) ∈ meta e -> persist v <> None).
Proof.
  unfold to_json. pose proof (meta_items_raise (meta e)) as Hm.
  destruct (meta_items (meta e)) as [pm|x].
  - split; split.
    + done.
    + intros (i & v & Hin & Hv). by apply (Hm i v) in Hin.
    + intros _. exact Hm.
    + intros _. by eexists.
  - destruct Hm as [-> (i & v & Hin & Hv)]. split; split.
    + intros _. by exists i, v.
    + done.
    + by intros [data ?].
    + intros Hall. by apply (Hall i v) in Hin.
Qed.

(** X14.  [from_json] needs the channel to restore the author: a record with an
    author and no channel raises [KeyError], and one whose channel the bot does
    not find (so that the channel name stands in for it) raises
    [AttributeError].  Without an author it always returns an entry. *)
Theorem from_json_author_needs_channel (playlist : Playlist) (data : persisted) :
  (forall a, dict_get "author" (p_meta data) = Some a ->
             dict_get "channel" (p_meta data) = None ->
             from_json playlist data = Raise (KeyError "channel"))
  /\ (forall a ch, dict_get "author" (p_meta data) = Some a ->
                   dict_get "channel" (p_meta data) = Some ch ->
                   persist (bot_get_channel playlist (pm_id ch)) = None ->
                   from_json playlist data = Raise AttributeError)
  /\ (dict_get "author" (p_meta data) = None ->
      exists e, from_json playlist data = Ret e).
Proof.
  unfold from_json. split; [|split].
  - intros a Ha Hc. by rewrite Ha, Hc.
  - intros a ch Ha Hc Hbot. rewrite Ha, Hc. simpl.
    by destruct (bot_get_channel playlist (pm_id ch)) as [?|[|? ?]|].
  - intros Ha. rewrite Ha. by eexists.
Qed.

(** X15.  An entry restored with the channel name standing in for a channel the bot
    did not find cannot be persisted again: [to_json] raises
    [AttributeError]. *)
Theorem restored_with_channel_name_cannot_persist (playlist : Playlist) (data : persisted)
    (ch : persisted_meta) (e : URLPlaylistEntry) :
  dict_get "channel" (p_meta data) = Some ch ->
  persist (bot_get_channel playlist (pm_id ch)) = None ->
  from_json playlist data = Ret e ->
  to_json e = Raise AttributeError.
Proof.
  intros Hc Hbot Hfrom.
  assert (Hbad : exists v, ("channel", v) ∈ meta e /\ persist v = None).
  { unfold from_json in Hfrom. rewrite Hc in Hfrom.
    destruct (dict_get "author" (p_meta data)) as [a|].
    - simpl in Hfrom.
      by destruct (bot_get_channel playlist (pm_id ch)) as [?|[|? ?]|].
    - injection Hfrom as <-. simpl.
      eexists. split; [apply list_elem_of_here|].
      by destruct (bot_get_channel playlist (pm_id ch)) as [?|[|? ?]|]. }
  destruct Hbad as (v & Hin & Hv).
  unfold to_json. pose proof (meta_items_raise (meta e)) as Hm.
  destruct (meta_items (meta e)) as [pm|x].
  - by apply (Hm "channel" v) in Hin.
  - by destruct Hm as [-> _].
Qed.

Lemma restored_with_channel_name_cannot_persist_witness :
  to_json (URLPlaylistEntry_init Examples.playlist "http://host/v" "song" 0 None
             [("channel", Str "general")])
  = Raise AttributeError.
Proof.
  apply (restored_with_channel_name_cannot_persist Examples.playlist
           (mkPersisted 1 "URLPlaylistEntry" "http://host/v" "song" 0 false None
              [("channel", mkPMeta "Channel" "42" "general")])
           (mkPMeta "Channel" "42" "general")); reflexivity.
Defined.

(** ** The resolution loop with any callback *)

(** X16.  Whatever the callback does, and whether or not it raises, the loop over
    a list is the loop over its front followed by the loop over its rest: no
    handle stops the handles after it from being visited. *)
Theorem for_each_loop_app {E : Type} (cb : callback E) (l1 l2 : list nat) (s : E * World) :
  for_each_loop cb (l1 ++ l2) s = for_each_loop cb l2 (for_each_loop cb l1 s).
Proof.
  revert s. induction l1 as [|h l1 IH]; intros s; [done|]. simpl.
  destruct (cancelled h (snd s)); [apply IH|].
  destruct (cb h s) as [s' [u|x]]; apply IH.
Qed.

(** ** Many callers, one download *)






(** X1.  [URL_one_download_at_a_time] on the loop of the example entry after one
    request and the start of its task. *)
Lemma URL_one_download_at_a_time_witness :
  running Runs.waiting_state <= 1
  /\ (running Runs.waiting_state = 1
      <-> _is_downloading (base (fst (state Runs.waiting_state))) = true)
  /\ (_is_downloading (base (fst (state Runs.waiting_state))) = true ->
      forall n, tasks (snd (state Runs.waiting_state)) = S n ->
                URLLoop.step URLLoop.TaskStart Runs.waiting_state
                = Some (mkSys (in_world (set_tasks n) (state Runs.waiting_state))
                          (running Runs.waiting_state))).
Proof.
  apply (URL_one_download_at_a_time Examples.stable_entry
           (fs (Examples.world Examples.drifted)) Runs.requests Runs.waiting_state).
  vm_compute. reflexivity.
Defined.


(** ** Which audio file an unpacked archive yields *)




(** ** LocalOsuPlaylistEntry *)







(** X21.  A local entry whose beatmap file cannot be opened is still built, with
    no file name, title or duration, and the error is printed; and since the class
    makes [is_downloaded] a method, every readiness future of such an entry is
    resolved with the entry on the spot, and no download is ever queued. *)
Theorem LocalOsu_unreadable_beatmap_is_ready (env : LocalEnv) (osu : string)
    (meta : list (string * pyobj)) (w : World) (id : Z) :
  PyText.int (PyStr.split_head " " (OsPath.basename (os_path_dirname osu))) = Some id ->
  Fs.isfile osu (fs w) = false ->
  exists w' e,
    LocalOsuPlaylistEntry_init env osu meta w = (w', Ret e)
    /\ length (log w') = S (S (length (log w)))
    /\ local_id e = id
    /\ filename (base e) = None
    /\ local_title e = None
    /\ local_duration e = None
    /\ forall w'',
         let out := LocalOsu_get_ready_future (e, w'') in
         futures (snd (snd out)) !! fst out = Some HasResult
         /\ tasks (snd (snd out)) = tasks w''
         /\ _waiting_futures (base (fst (snd out))) = [].
Proof.
  intros Hid Hfile. unfold LocalOsuPlaylistEntry_init. rewrite Hid.
  unfold Fs.isfile in Hfile. rewrite fs_emit.
  assert (Hready : forall (e : LocalOsuPlaylistEntry) w'',
             _waiting_futures (base e) = [] ->
             let out := LocalOsu_get_ready_future (e, w'') in
             futures (snd (snd out)) !! fst out = Some HasResult
             /\ tasks (snd (snd out)) = tasks w''
             /\ _waiting_futures (base (fst (snd out))) = []).
  { intros e w'' Hw. unfold LocalOsu_get_ready_future, new_future, set_result, settle.
    cbn [fst snd set_futures futures]. rewrite lookup_snoc, decide_True by done.
    cbn [fst snd emit set_futures futures tasks]. rewrite lookup_snoc_insert.
    by rewrite decide_True. }
  destruct (Fs.lookup osu (fs w)) as [[content|sz]|]; [done| |];
    do 2 eexists; (split; [reflexivity|]);
    (split; [simpl; rewrite !length_app; simpl; lia|]);
    (do 4 (split; [reflexivity|])); intros w''; by apply Hready.
Qed.

Lemma LocalOsu_unreadable_beatmap_is_ready_witness :
  exists w' e,
    LocalOsuPlaylistEntry_init (mkLocalEnv (fun _ => None) (fun _ => "gone"))
      "Songs/123 Artist - Song/map.osu" [] (mkWorld [] 0 0 [] []) = (w', Ret e)
    /\ length (log w') = 2
    /\ local_id e = 123%Z
    /\ filename (base e) = None
    /\ local_title e = None
    /\ local_duration e = None
    /\ forall w'',
         let out := LocalOsu_get_ready_future (e, w'') in
         futures (snd (snd out)) !! fst out = Some HasResult
         /\ tasks (snd (snd out)) = tasks w''
         /\ _waiting_futures (base (fst (snd out))) = [].
Proof.
  apply (LocalOsu_unreadable_beatmap_is_ready (mkLocalEnv (fun _ => None) (fun _ => "gone"))
           "Songs/123 Artist - Song/map.osu" [] (mkWorld [] 0 0 [] []) 123%Z); reflexivity.
Defined.

(** ** A failed attempt does not take the file name back *)

(** X22.  When the body of [_download] raises after it has assigned a file name,
    the waiting callers get the exception, but the file name stays: the entry
    reports downloaded from then on, and the next readiness future is resolved
    with the entry on the spot, with no new download queued. *)
Theorem failed_attempt_keeps_filename (c : Collab) (s : St) (x : exn) (f : string) :
  NoDup (_waiting_futures (base (fst s))) ->
  let body := download_body c (assign_is_downloading true s) in
  snd body = Raise x ->
  filename (base (fst (fst body))) = Some f ->
  f <> "" ->
  let s' := download_attempt c s in
  (forall h, h ∈ _waiting_futures (base (fst s)) -> futures (snd s) !! h = Some Pending ->
             futures (snd s') !! h = Some (HasException x))
  /\ is_downloaded (base (fst s')) = true
  /\ let next := get_ready_future s' in
     futures (snd (snd next)) !! fst next = Some HasResult
     /\ tasks (snd (snd next)) = tasks (snd s')
     /\ _waiting_futures (base (fst (snd next))) = [].
Proof.
  intros Hnd body Hraise Hname Hf s'.
  destruct (download_attempt_by_body c s Hnd) as (Hw & Hd & Hn & _ & Hp & _).
  fold body in Hn, Hp. fold s' in Hw, Hd, Hn, Hp. rewrite Hraise in Hp.
  assert (Hdl : is_downloaded (base (fst s')) = true).
  { unfold is_downloaded. rewrite Hd, Hn, Hname. by destruct f. }
  split; [exact Hp|]. split; [exact Hdl|].
  unfold get_ready_future, new_future. cbn [fst snd]. rewrite Hdl.
  unfold set_result, settle. cbn [fst snd set_futures futures].
  rewrite lookup_snoc, decide_True by done.
  cbn [fst snd emit set_futures futures tasks]. rewrite lookup_snoc_insert.
  by rewrite decide_True.
Qed.

Lemma failed_attempt_keeps_filename_witness :
  let s := snd (get_ready_future (Examples.generic_entry, Examples.world Examples.hashed)) in
  let s' := download_attempt (Examples.collab None) s in
  (forall h, h ∈ [0] -> [Pending] !! h = Some Pending ->
             futures (snd s') !! h
             = Some (HasException (FileNotFoundError "audio_cache/generic-song.mp3")))
  /\ is_downloaded (base (fst s')) = true
  /\ let next := get_ready_future s' in
     futures (snd (snd next)) !! fst next = Some HasResult
     /\ tasks (snd (snd next)) = tasks (snd s')
     /\ _waiting_futures (base (fst (snd next))) = [].
Proof.
  exact (failed_attempt_keeps_filename (Examples.collab None)
           (snd (get_ready_future (Examples.generic_entry, Examples.world Examples.hashed)))
           (FileNotFoundError "audio_cache/generic-song.mp3")
           "audio_cache/generic-song-deadbeef.mp3"
           ltac:(compute_done) eq_refl eq_refl ltac:(discriminate)).
Defined.

(** ** How often one attempt goes to the network *)

Lemma at_most_nothing {A : Type} (p q : nat) (m : M A) :
  (forall s, log (snd (fst (m s))) = log (snd s)) -> at_most p q m.
Proof.
  intros Hm s. exists []. rewrite app_nil_r. split; [apply Hm|]. unfold probes, transfers. split; simpl; lia.
Qed.

Lemma at_most_ret {A : Type} (p q : nat) (a : A) : at_most p q (ret a).
Proof. by apply at_most_nothing. Qed.

Lemma at_most_raise {A : Type} (p q : nat) (x : exn) : at_most p q (@raise A x).
Proof. by apply at_most_nothing. Qed.

Lemma at_most_self (p q : nat) : at_most p q self.
Proof. by apply at_most_nothing. Qed.

Lemma at_most_get_fs (p q : nat) : at_most p q get_fs.
Proof. by apply at_most_nothing. Qed.

Lemma at_most_set_fs (p q : nat) (f : list (string * node)) :
  at_most p q (modify_world (set_fs f)).
Proof. by apply at_most_nothing. Qed.

Lemma at_most_assign_filename (p q : nat) (f : string) : at_most p q (assign_filename f).
Proof. by apply at_most_nothing. Qed.

Lemma at_most_perform (p q : nat) (ev : effect) :
  probes [ev] <= p -> transfers [ev] <= q -> at_most p q (perform ev).
Proof. intros Hp Hq s. by exists [ev]. Qed.

Lemma at_most_bind {A B : Type} (p1 q1 p2 q2 : nat) (m : M A) (k : A -> M B) :
  at_most p1 q1 m -> (forall a, at_most p2 q2 (k a)) ->
  at_most (p1 + p2) (q1 + q2) (bind m k).
Proof.
  intros Hm Hk s. unfold bind. destruct (Hm s) as (l1 & L1 & P1 & Q1).
  destruct (m s) as [s' [a|x]]; cbn [fst snd] in *.
  - destruct (Hk a s') as (l2 & L2 & P2 & Q2). exists (l1 ++ l2).
    rewrite L2, L1, <- app_assoc. split; [done|].
    unfold probes, transfers in *. rewrite !List.filter_app, !List.length_app. lia.
  - exists l1. split; [done|]. lia.
Qed.

(** A step that does not go to the network leaves the budget to the rest. *)
Lemma at_most_bind_free {A B : Type} (p q : nat) (m : M A) (k : A -> M B) :
  at_most 0 0 m -> (forall a, at_most p q (k a)) -> at_most p q (bind m k).
Proof. intros Hm Hk. by apply (at_most_bind 0 0 p q). Qed.

Ltac at_most_step :=
  first
    [ apply at_most_ret | apply at_most_raise | apply at_most_self | apply at_most_get_fs
    | apply at_most_set_fs | apply at_most_assign_filename
    | apply at_most_perform; unfold probes, transfers; simpl; lia
    | match goal with
      | |- at_most _ _ (bind _ _) => apply at_most_bind_free; [|intros ?]
      | |- at_most _ _ (match ?x with _ => _ end) => destruct x
      | |- at_most _ _ (if ?b then _ else _) => destruct b
      end
    | progress cbv beta zeta ].

Ltac at_most_free := repeat at_most_step.

Lemma at_most_await_extract_info (c : Collab) : at_most 0 1 (await_extract_info c).
Proof.
  unfold await_extract_info. apply at_most_bind_free; [at_most_free|intros e].
  apply (at_most_bind 0 1 0 0); [|intros _; at_most_free].
  apply at_most_perform; unfold probes, transfers; simpl; lia.
Qed.

Lemma at_most_really_download (c : Collab) (hash : bool) (p : nat) :
  at_most p 1 (_really_download c hash).
Proof.
  unfold _really_download.
  apply at_most_bind_free; [at_most_free|intros e].
  apply at_most_bind_free; [unfold print; at_most_free|intros _].
  apply (at_most_bind 0 1 p 0); [apply at_most_await_extract_info|intros result].
  unfold print, md5sum, os_path_isfile, os_unlink, os_rename. at_most_free.
Qed.

Lemma at_most_await_rsize (c : Collab) : at_most 1 0 (await_rsize c).
Proof.
  unfold await_rsize. apply at_most_bind_free; [at_most_free|intros e].
  apply (at_most_bind 1 0 0 0); [|intros _; at_most_free].
  apply at_most_perform; unfold probes, transfers; simpl; lia.
Qed.

Lemma at_most_download_body (c : Collab) : at_most 1 1 (download_body c).
Proof.
  unfold download_body, download_generic, download_stable, os_path_exists, os_makedirs,
    os_listdir, expected_basename, py_index, py_getitem, os_path_getsize, print.
  repeat first
    [ apply at_most_really_download
    | match goal with
      | |- at_most _ _ (bind (await_rsize _) _) =>
          apply (at_most_bind 1 0 0 1); [apply at_most_await_rsize|intros ?]
      end
    | at_most_step ].
Qed.

(** The loop with the two callbacks of the source never goes to the
    network. *)
Lemma for_each_loop_offline {E : Type} (failure : option exn) (l : list nat) (s : E * World) :
  exists l', log (snd (for_each_loop (ready_callback failure) l s)) = log (snd s) ++ l'
             /\ probes l' = 0 /\ transfers l' = 0.
Proof.
  rewrite ready_callback_settle. revert s.
  induction l as [|h l IH]; intros s; cbn [for_each_loop].
  - exists []. by rewrite app_nil_r.
  - destruct (cancelled h (snd s)); [apply IH|].
    destruct (futures (snd s) !! h) as [[| | |x]|] eqn:Hlk.
    1: rewrite (on_future_settle_pending _ _ _ _ Hlk).
    2-5: rewrite on_future_settle_done by (by rewrite Hlk).
    all: match goal with
         | |- context [for_each_loop _ _ ?st] => destruct (IH st) as (l' & L & P & Q)
         end;
         rewrite L; cbn [fst snd emit log]; rewrite <- app_assoc;
         eexists; (split; [reflexivity|]);
         unfold probes, transfers in *; rewrite !List.filter_app, !List.length_app;
         rewrite P, Q; by destruct failure.
Qed.

(** X23.  One call of [_download], whatever branch it takes and however it ends,
    asks for the remote size at most once and hands the url to the extractor at
    most once. *)
Theorem download_goes_to_network_once (c : Collab) (s : St) :
  exists l, log (snd (_download c s)) = log (snd s) ++ l
            /\ probes l <= 1 /\ transfers l <= 1.
Proof.
  unfold _download. destruct (_is_downloading (base (fst s))).
  { exists []. rewrite app_nil_r. split; [done|]. unfold probes, transfers. split; simpl; lia. }
  unfold download_attempt.
  destruct (at_most_download_body c (assign_is_downloading true s)) as (l1 & L1 & P1 & Q1).
  destruct (download_body c (assign_is_downloading true s)) as [s2 [u|x]];
    cbn [fst snd] in L1; unfold _for_each_future, assign_is_downloading; cbn [fst snd].
  - change cb_set_result with (@ready_callback URLPlaylistEntry None).
    match goal with
    | |- context [for_each_loop _ ?l ?st] =>
        destruct (for_each_loop_offline None l st) as (l2 & L2 & P2 & Q2)
    end.
    exists (l1 ++ l2). rewrite L2. cbn [fst snd]. rewrite L1, <- app_assoc.
    split; [done|]. unfold probes, transfers in *.
    rewrite !List.filter_app, !List.length_app. lia.
  - change (cb_set_exception x) with (@ready_callback URLPlaylistEntry (Some x)).
    match goal with
    | |- context [for_each_loop _ ?l ?st] =>
        destruct (for_each_loop_offline (Some x) l st) as (l2 & L2 & P2 & Q2)
    end.
    exists (l1 ++ [PrintExc x] ++ l2). rewrite L2. cbn [fst snd emit log].
    rewrite L1, <- !app_assoc. split; [done|]. unfold probes, transfers in *.
    rewrite !List.filter_app, !List.length_app. simpl. lia.
Qed.
